(** * process_leowasp: the nightly reduction script, embedded and verified

    The script [process_leowasp.py] is a straight-line orchestrator: it reads
    two configuration mappings, fixes the photometric apertures, builds the
    master calibration frames, then walks the science frames, measuring the
    shift of each one against the reference image, quarantining the frames
    that moved too far and handing the others to the photometry routine.

    All numerical work is done by the [jastro] and [donuts] packages; the
    script only sequences the calls and takes the decisions.  The embedding
    therefore is a small state/writer/error monad:
    - the state is the set of paths that exist in the working directory
      (the script tests and creates [failed_donuts]);
    - the writer part is the ordered list of calls the script makes to the
      outside world, each with the arguments it was given;
    - the error part is the Python exception that aborts the script, raised
      either by a collaborator or by [os.mkdir].

    Python floats are idealised as rationals ([Q]); the only arithmetic the
    script performs on them is [round(v, 2)], [abs] and [>] on the shift.
    Not-a-number and the infinities have no counterpart here.  On a numpy
    float, [round(v, 2)] is [rint(v * 100.0) / 100.0] in binary arithmetic:
    it agrees with the exact rounding used here except when [v * 100] lies
    within a rounding error of a tie, where the two may round to different
    hundredths.  The statements about the gate are therefore of two kinds:
    those that hold whatever the rounding function is, and those that keep
    a margin from the ties.

    Outside the model: the parsing of the command line and of the two
    configuration files (the script starts here from the two mappings, with
    every key it reads present), the values read from the clock, the
    exceptions that [EarthLocation], the display calls, [os.system] or an
    [os.mkdir] on a path that [os.path.exists] denies could raise, the files
    that the collaborators read and write, and what the shell does with the
    command it is given: the set of paths follows [os.mkdir] only, and a
    collaborator is a function of its arguments. *)

From Stdlib Require Import ZArith QArith Qround Qabs List String Lia Lqa.
From stdpp Require Import gmap strings.
Import ListNotations.
Local Open Scope string_scope.
Local Open Scope Q_scope.
Local Open Scope list_scope.

(** ** Numbers *)

(** Round half to even, to an integer: what numpy's [rint] and the exact
    decimal rounding of CPython both do at a tie. *)
Definition rint (q : Q) : Z :=
  let f := Qfloor q in
  match Qcompare (q - inject_Z f)%Q (1 # 2)%Q with
  | Lt => f
  | Gt => (f + 1)%Z
  | Eq => if Z.even f then f else (f + 1)%Z
  end.

(** [round(v, ndigits)], taken exactly on the rational [v]. *)
Definition py_round (v : Q) (ndigits : nat) : Q :=
  let scale := Z.pow 10 (Z.of_nat ndigits) in
  Qmake (rint (v * inject_Z scale)%Q) (Z.to_pos scale).

(** [a > s] on a numpy array, element by element *)
Definition np_greater (a : list Q) (s : Q) : list bool :=
  map (fun v => negb (Qle_bool v s)) a.

(** [np.sum] of a boolean array counts its true entries *)
Definition np_sum (a : list bool) : Z :=
  fold_right (fun (b : bool) (n : Z) => ((if b then 1 else 0) + n)%Z) 0%Z a.

(** The measured shift: [shift.x.value] and [shift.y.value], in pixels. *)
Record Shift := { shift_x : Q; shift_y : Q }.

(** Lines 139-143: the test that sends a frame to quarantine.
    [sx = round(shift.x.value, 2)], [sy = round(shift.y.value, 2)],
    [shifts = np.array([abs(sx), abs(sy)])],
    [np.sum(shifts > night_config['max_donuts_shift']) > 0]. *)
Definition shift_too_big (shift : Shift) (max_donuts_shift : Q) : bool :=
  let sx := py_round (shift_x shift) 2 in
  let sy := py_round (shift_y shift) 2 in
  let shifts := [Qabs sx; Qabs sy] in
  (0 <? np_sum (np_greater shifts max_donuts_shift))%Z.

(** ** Configuration

    [j.config.load] returns a mapping; the script reads the keys below and no
    others.  A nested key [inst_config['imager']['dark_keyword']] is the
    field [inst_imager_dark_keyword]. *)

Record NightConfig := {
  night_ds9 : bool;
  night_region_file : string;
  night_defocused : bool;
  night_reference_image : string;
  night_max_sep_shift : Q;
  night_master_dark_filename : string;
  night_filter : string;
  night_master_flat_filename : string;
  night_max_donuts_shift : Q;
  night_aperture_radii : list Q
}.

Record InstConfig := {
  inst_ds9_window_id : string;
  inst_ds9_index_offset : Z;
  inst_observatory_olat : Q;
  inst_observatory_olon : Q;
  inst_observatory_elev : Q;
  inst_sky_background_sigma : Q;
  inst_imager_overscan_keyword : string;
  inst_imager_dark_keyword : string;
  inst_imager_exptime_keyword : string;
  inst_imager_flat_keyword : string;
  inst_imager_image_keyword : string;
  inst_imager_ra_keyword : string;
  inst_imager_dec_keyword : string;
  inst_imager_dateobs_start_keyword : string
}.

(** *** The configuration as the mapping it is

    Before it is a record with every key present, a configuration is a
    mapping in which a key may be missing; [None] is the missing key.  The
    values are taken at the types the script uses them at.  The instrument
    configuration has four sections, each a mapping of its own. *)

Record RawNight := {
  raw_ds9 : option bool;
  raw_region_file : option string;
  raw_defocused : option bool;
  raw_reference_image : option string;
  raw_max_sep_shift : option Q;
  raw_master_dark_filename : option string;
  raw_filter : option string;
  raw_master_flat_filename : option string;
  raw_max_donuts_shift : option Q;
  raw_aperture_radii : option (list Q)
}.

Record RawDs9 := {
  raw_window_id : option string;
  raw_index_offset : option Z
}.

Record RawObservatory := {
  raw_olat : option Q;
  raw_olon : option Q;
  raw_elev : option Q
}.

Record RawSky := {
  raw_background_sigma : option Q
}.

Record RawImager := {
  raw_overscan_keyword : option string;
  raw_dark_keyword : option string;
  raw_exptime_keyword : option string;
  raw_flat_keyword : option string;
  raw_image_keyword : option string;
  raw_ra_keyword : option string;
  raw_dec_keyword : option string;
  raw_dateobs_start_keyword : option string
}.

Record RawInst := {
  raw_section_ds9 : option RawDs9;
  raw_section_observatory : option RawObservatory;
  raw_section_sky : option RawSky;
  raw_section_imager : option RawImager
}.

(** The mapping of a night configuration that has every key. *)
Definition complete_night (n : NightConfig) : RawNight :=
  {| raw_ds9 := Some (night_ds9 n);
     raw_region_file := Some (night_region_file n);
     raw_defocused := Some (night_defocused n);
     raw_reference_image := Some (night_reference_image n);
     raw_max_sep_shift := Some (night_max_sep_shift n);
     raw_master_dark_filename := Some (night_master_dark_filename n);
     raw_filter := Some (night_filter n);
     raw_master_flat_filename := Some (night_master_flat_filename n);
     raw_max_donuts_shift := Some (night_max_donuts_shift n);
     raw_aperture_radii := Some (night_aperture_radii n) |}.

(** The mapping of an instrument configuration that has every key. *)
Definition complete_inst (i : InstConfig) : RawInst :=
  {| raw_section_ds9 :=
       Some {| raw_window_id := Some (inst_ds9_window_id i);
               raw_index_offset := Some (inst_ds9_index_offset i) |};
     raw_section_observatory :=
       Some {| raw_olat := Some (inst_observatory_olat i);
               raw_olon := Some (inst_observatory_olon i);
               raw_elev := Some (inst_observatory_elev i) |};
     raw_section_sky :=
       Some {| raw_background_sigma := Some (inst_sky_background_sigma i) |};
     raw_section_imager :=
       Some {| raw_overscan_keyword := Some (inst_imager_overscan_keyword i);
               raw_dark_keyword := Some (inst_imager_dark_keyword i);
               raw_exptime_keyword := Some (inst_imager_exptime_keyword i);
               raw_flat_keyword := Some (inst_imager_flat_keyword i);
               raw_image_keyword := Some (inst_imager_image_keyword i);
               raw_ra_keyword := Some (inst_imager_ra_keyword i);
               raw_dec_keyword := Some (inst_imager_dec_keyword i);
               raw_dateobs_start_keyword :=
                 Some (inst_imager_dateobs_start_keyword i) |} |}.

(** A mapping with one key set or, with [None], removed. *)
Definition with_max_sep_shift (v : option Q) (n : RawNight) : RawNight :=
  {| raw_ds9 := raw_ds9 n;
     raw_region_file := raw_region_file n;
     raw_defocused := raw_defocused n;
     raw_reference_image := raw_reference_image n;
     raw_max_sep_shift := v;
     raw_master_dark_filename := raw_master_dark_filename n;
     raw_filter := raw_filter n;
     raw_master_flat_filename := raw_master_flat_filename n;
     raw_max_donuts_shift := raw_max_donuts_shift n;
     raw_aperture_radii := raw_aperture_radii n |}.

Definition with_max_donuts_shift (v : option Q) (n : RawNight) : RawNight :=
  {| raw_ds9 := raw_ds9 n;
     raw_region_file := raw_region_file n;
     raw_defocused := raw_defocused n;
     raw_reference_image := raw_reference_image n;
     raw_max_sep_shift := raw_max_sep_shift n;
     raw_master_dark_filename := raw_master_dark_filename n;
     raw_filter := raw_filter n;
     raw_master_flat_filename := raw_master_flat_filename n;
     raw_max_donuts_shift := v;
     raw_aperture_radii := raw_aperture_radii n |}.

Definition with_aperture_radii (v : option (list Q)) (n : RawNight) : RawNight :=
  {| raw_ds9 := raw_ds9 n;
     raw_region_file := raw_region_file n;
     raw_defocused := raw_defocused n;
     raw_reference_image := raw_reference_image n;
     raw_max_sep_shift := raw_max_sep_shift n;
     raw_master_dark_filename := raw_master_dark_filename n;
     raw_filter := raw_filter n;
     raw_master_flat_filename := raw_master_flat_filename n;
     raw_max_donuts_shift := raw_max_donuts_shift n;
     raw_aperture_radii := v |}.

Definition with_section_ds9 (v : option RawDs9) (i : RawInst) : RawInst :=
  {| raw_section_ds9 := v;
     raw_section_observatory := raw_section_observatory i;
     raw_section_sky := raw_section_sky i;
     raw_section_imager := raw_section_imager i |}.

Definition with_section_sky (v : option RawSky) (i : RawInst) : RawInst :=
  {| raw_section_ds9 := raw_section_ds9 i;
     raw_section_observatory := raw_section_observatory i;
     raw_section_sky := v;
     raw_section_imager := raw_section_imager i |}.

(** The [ds9] section with its [window_id] set or removed; a missing
    section stays missing. *)
Definition with_window_id (v : option string) (i : RawInst) : RawInst :=
  with_section_ds9
    (match raw_section_ds9 i with
     | Some sec => Some {| raw_window_id := v;
                           raw_index_offset := raw_index_offset sec |}
     | None => None
     end) i.

(** [EarthLocation(lat=..., lon=..., height=...)] *)
Record EarthLocation := { lat : Q; lon : Q; height : Q }.

(** The four parallel arrays [x, y, rsi, rso] of the region file. *)
Record Apertures := {
  ap_x : list Q;
  ap_y : list Q;
  ap_rsi : list Q;
  ap_rso : list Q
}.

(** The three variables set by the DS9 block (lines 62-69);
    [ds9_window_id] is [None] when the display is off. *)
Record Display := {
  ds9 : bool;
  ds9_window_id : option string;
  draw_regions : bool
}.

(** ** Exceptions *)

Inductive exn :=
| FileExistsError (path : string)
| CollaboratorError (what : string).

Inductive result (A : Type) :=
| Ok (a : A)
| Raise (e : exn).
Arguments Ok {A} a.
Arguments Raise {A} e.

(** What [print] is given. *)
Inductive Message :=
| Msg_shift_too_big (filename : string) (sx sy : Q)
| Msg_text (s : string)
| Msg_elapsed.

Section Script.

(** Opaque objects handed from one collaborator to the next: the pixel
    array of a frame, a time stamp, the [Donuts] object and the image
    collection. *)
Context {Pixels Time Aligner ImageCollection : Type}.

(** Variables of the calibration block (lines 101-119); a master frame that
    could not be built is Python's [None]. *)
Record Masters := {
  master_dark : option Pixels;
  dark_exp : Q;
  master_flat : option Pixels
}.

(** *** Arguments of the larger calls, by keyword *)

Record MasterDarkArgs := {
  md_images : ImageCollection;
  md_overscan_keyword : string;
  md_dark_keyword : string;
  md_exptime_keyword : string;
  md_master_dark_filename : string
}.

Record MasterFlatArgs := {
  mf_images : ImageCollection;
  mf_filter : string;
  mf_overscan_keyword : string;
  mf_master_dark : option Pixels;
  mf_dark_exp : Q;
  mf_flat_keyword : string;
  mf_exptime_keyword : string;
  mf_master_flat_filename : string
}.

Record CorrectArgs := {
  cd_filename : string;
  cd_filter : string;
  cd_location : EarthLocation;
  cd_master_dark : option Pixels;
  cd_overscan_keyword : string;
  cd_master_flat : option Pixels;
  cd_dark_exp : Q;
  cd_exptime_keyword : string;
  cd_ra_keyword : string;
  cd_dec_keyword : string;
  cd_dateobs_start_keyword : string
}.

Record PhotArgs := {
  ph_data : Pixels;
  ph_shift : Shift;
  ph_x : list Q;
  ph_y : list Q;
  ph_rsi : list Q;
  ph_rso : list Q;
  ph_aperture_radii : list Q;
  ph_filename : string;
  ph_jd : Time;
  ph_bjd : Time;
  ph_hjd : Time;
  ph_ds9_name : option string;
  ph_gain : Q;
  ph_draw_regions : bool;
  ph_index_offset : Z
}.

(** ** The collaborators

    What [jastro], [donuts] and [ccdproc] compute is outside the script.
    Each call that returns data is a function of its arguments that either
    returns or raises; the script has no [try], so a raise ends the run.
    In-place mutation of an argument by a collaborator is not modelled. *)
Class Collaborators := {
  read_region_file : string -> result Apertures;
  source_extract : string -> Q -> list Q -> list Q -> result (list Q * list Q);
  recenter_stars :
    list Q -> list Q -> list Q -> list Q -> Q -> result (list Q * list Q);
  Donuts : string -> result Aligner;
  measure_shift : Aligner -> string -> result Shift;
  get_image_list : result ImageCollection;
  files_filtered : ImageCollection -> string -> string -> result (list string);
  make_master_dark_osc : MasterDarkArgs -> result (option Pixels * Q);
  make_master_flat_osc : MasterFlatArgs -> result (option Pixels);
  correct_data_osc : CorrectArgs -> result (Pixels * Time * Time * Time);
  phot : PhotArgs -> result unit
}.

(** ** The trace: every call that leaves the script, in order *)
Inductive Event :=
| E_ds9_setup (window_id : string)
| E_ds9_display (window_id : option string) (file : string)
| E_sleep (seconds : Z)
| E_print (msg : Message)
| E_utcnow
| E_mkdir (path : string)
| E_system (command : string)
| E_read_region_file (region_file : string)
| E_source_extract (image : string) (sigma : Q) (rad_sky_inner rad_sky_outer : list Q)
| E_recenter_stars (x y source_x source_y : list Q) (max_sep_shift : Q)
| E_Donuts (reference_image : string)
| E_get_image_list
| E_make_master_dark_osc (a : MasterDarkArgs)
| E_make_master_flat_osc (a : MasterFlatArgs)
| E_files_filtered (images : ImageCollection) (imagetyp filter : string)
| E_correct_data_osc (a : CorrectArgs)
| E_measure_shift (d : Aligner) (filename : string)
| E_phot (a : PhotArgs).

(** ** The monad

    A computation starts from the set of existing paths and yields its
    outcome, the calls it made and the paths that exist afterwards.  The
    calls made before an exception stay in the trace. *)
Definition M (A : Type) : Type :=
  gset string -> result A * list Event * gset string.

Definition ret {A} (a : A) : M A := fun fs => (Ok a, [], fs).

Definition bind {A B} (m : M A) (k : A -> M B) : M B := fun fs =>
  match m fs with
  | (Ok a, ev, fs1) =>
      match k a fs1 with
      | (r, ev', fs2) => (r, ev ++ ev', fs2)
      end
  | (Raise e, ev, fs1) => (Raise e, ev, fs1)
  end.

Notation "x <- m ;; k" := (bind m (fun x => k))
  (at level 100, m at next level, right associativity).
Notation "m ;;; k" := (bind m (fun _ => k))
  (at level 100, right associativity).

(** A call to a collaborator: recorded, then it returns or raises. *)
Definition call {A} (e : Event) (r : result A) : M A := fun fs => (r, [e], fs).

(** A call made for its effect only ([print], the display, the clock). *)
Definition emit (e : Event) : M unit := fun fs => (Ok tt, [e], fs).

Definition os_path_exists (path : string) : M bool :=
  fun fs => (Ok (bool_decide (path ∈ fs)), [], fs).

(** [os.mkdir] raises [FileExistsError] on a path that exists. *)
Definition os_mkdir (path : string) : M unit := fun fs =>
  if bool_decide (path ∈ fs)
  then (Raise (FileExistsError path), [E_mkdir path], fs)
  else (Ok tt, [E_mkdir path], {[path]} ∪ fs).

(** [os.system] hands the command to the shell; its exit status is dropped
    by the script and what the shell does is not tracked in the path set. *)
Definition os_system (command : string) : M unit :=
  fun fs => (Ok tt, [E_system command], fs).

Fixpoint for_each {A} (l : list A) (body : A -> M unit) : M unit :=
  match l with
  | [] => ret tt
  | a :: l' => body a ;;; for_each l' body
  end.

Context `{Collaborators}.

Section Main.
Variables (night_config : NightConfig) (inst_config : InstConfig).

(** Lines 62-69: set up DS9. *)
Definition set_up_ds9 : M Display :=
  let ds9 := night_ds9 night_config in
  if ds9 then
    let ds9_window_id := inst_ds9_window_id inst_config in
    emit (E_ds9_setup ds9_window_id) ;;;
    ret {| ds9 := ds9; ds9_window_id := Some ds9_window_id; draw_regions := true |}
  else
    ret {| ds9 := ds9; ds9_window_id := None; draw_regions := false |}.

(** Lines 72-74. *)
Definition location : EarthLocation :=
  {| lat := inst_observatory_olat inst_config;
     lon := inst_observatory_olon inst_config;
     height := inst_observatory_elev inst_config |}.

(** Lines 77-84: set up the apertures for photometry. *)
Definition set_up_apertures : M Apertures :=
  let region_file := night_region_file night_config in
  aps <- call (E_read_region_file region_file) (read_region_file region_file) ;;
  let '(Build_Apertures x y rsi rso) := aps in
  if negb (night_defocused night_config) then
    let image := night_reference_image night_config in
    let sigma := inst_sky_background_sigma inst_config in
    src <- call (E_source_extract image sigma rsi rso)
                (source_extract image sigma rsi rso) ;;
    let '(source_x, source_y) := src in
    let max_sep := night_max_sep_shift night_config in
    xy <- call (E_recenter_stars x y source_x source_y max_sep)
               (recenter_stars x y source_x source_y max_sep) ;;
    let '(x, y) := xy in
    ret (Build_Apertures x y rsi rso)
  else
    ret (Build_Apertures x y rsi rso).

(** The keyword arguments of [make_master_dark_osc] (lines 101-105). *)
Definition master_dark_args (images : ImageCollection) : MasterDarkArgs :=
  {| md_images := images;
     md_overscan_keyword := inst_imager_overscan_keyword inst_config;
     md_dark_keyword := inst_imager_dark_keyword inst_config;
     md_exptime_keyword := inst_imager_exptime_keyword inst_config;
     md_master_dark_filename := night_master_dark_filename night_config |}.

(** Lines 101-108: make master dark. *)
Definition make_master_dark (disp : Display) (images : ImageCollection)
  : M (option Pixels * Q) :=
  let a := master_dark_args images in
  r <- call (E_make_master_dark_osc a) (make_master_dark_osc a) ;;
  let '(master_dark, dark_exp) := r in
  (if match master_dark with Some _ => true | None => false end && ds9 disp then
     emit (E_ds9_display (ds9_window_id disp) (night_master_dark_filename night_config)) ;;;
     emit (E_sleep 5)
   else ret tt) ;;;
  ret (master_dark, dark_exp).

(** The arguments of [make_master_flat_osc] (lines 111-116). *)
Definition master_flat_args (images : ImageCollection)
    (master_dark : option Pixels) (dark_exp : Q) : MasterFlatArgs :=
  {| mf_images := images;
     mf_filter := night_filter night_config;
     mf_overscan_keyword := inst_imager_overscan_keyword inst_config;
     mf_master_dark := master_dark;
     mf_dark_exp := dark_exp;
     mf_flat_keyword := inst_imager_flat_keyword inst_config;
     mf_exptime_keyword := inst_imager_exptime_keyword inst_config;
     mf_master_flat_filename := night_master_flat_filename night_config |}.

(** Lines 111-119: make master flat. *)
Definition make_master_flat (disp : Display) (images : ImageCollection)
    (master_dark : option Pixels) (dark_exp : Q) : M (option Pixels) :=
  let a := master_flat_args images master_dark dark_exp in
  master_flat <- call (E_make_master_flat_osc a) (make_master_flat_osc a) ;;
  (if match master_flat with Some _ => true | None => false end && ds9 disp then
     emit (E_ds9_display (ds9_window_id disp) (night_master_flat_filename night_config)) ;;;
     emit (E_sleep 5)
   else ret tt) ;;;
  ret master_flat.

(** The keyword arguments of [correct_data_osc] (lines 128-135). *)
Definition correct_args (loc : EarthLocation) (m : Masters) (filename : string)
  : CorrectArgs :=
  {| cd_filename := filename;
     cd_filter := night_filter night_config;
     cd_location := loc;
     cd_master_dark := master_dark m;
     cd_overscan_keyword := inst_imager_overscan_keyword inst_config;
     cd_master_flat := master_flat m;
     cd_dark_exp := dark_exp m;
     cd_exptime_keyword := inst_imager_exptime_keyword inst_config;
     cd_ra_keyword := inst_imager_ra_keyword inst_config;
     cd_dec_keyword := inst_imager_dec_keyword inst_config;
     cd_dateobs_start_keyword := inst_imager_dateobs_start_keyword inst_config |}.

(** The arguments of [phot] (lines 153-156). *)
Definition phot_args (disp : Display) (aps : Apertures) (filename : string)
    (data : Pixels) (jd bjd hjd : Time) (shift : Shift) : PhotArgs :=
  {| ph_data := data;
     ph_shift := shift;
     ph_x := ap_x aps;
     ph_y := ap_y aps;
     ph_rsi := ap_rsi aps;
     ph_rso := ap_rso aps;
     ph_aperture_radii := night_aperture_radii night_config;
     ph_filename := filename;
     ph_jd := jd;
     ph_bjd := bjd;
     ph_hjd := hjd;
     ph_ds9_name := ds9_window_id disp;
     ph_gain := 0.4;
     ph_draw_regions := draw_regions disp;
     ph_index_offset := inst_ds9_index_offset inst_config |}.

(** Lines 144-150: the quarantine of a frame that moved too far. *)
Definition quarantine (filename : string) (sx sy : Q) : M unit :=
  emit (E_print (Msg_shift_too_big filename sx sy)) ;;;
  there <- os_path_exists "failed_donuts" ;;
  (if negb there then os_mkdir "failed_donuts" else ret tt) ;;;
  let comm := ("mv " ++ filename ++ " failed_donuts/")%string in
  emit (E_print (Msg_text comm)) ;;;
  os_system comm.

(** Lines 124-158: the body of the loop over the science frames.  The
    [continue] of line 150 is the end of the first branch. *)
Definition reduce_frame (disp : Display) (loc : EarthLocation) (aps : Apertures)
    (d : Aligner) (m : Masters) (filename : string) : M unit :=
  emit E_utcnow ;;;
  (if ds9 disp then emit (E_ds9_display (ds9_window_id disp) filename) else ret tt) ;;;
  let ca := correct_args loc m filename in
  r <- call (E_correct_data_osc ca) (correct_data_osc ca) ;;
  let '(data, jd, bjd, hjd) := r in
  shift <- call (E_measure_shift d filename) (measure_shift d filename) ;;
  let sx := py_round (shift_x shift) 2 in
  let sy := py_round (shift_y shift) 2 in
  if shift_too_big shift (night_max_donuts_shift night_config) then
    quarantine filename sx sy
  else
    let pa := phot_args disp aps filename data jd bjd hjd shift in
    call (E_phot pa) (phot pa) ;;;
    emit E_utcnow ;;;
    emit (E_print Msg_elapsed).

(** Lines 122-158: the loop. *)
Definition reduce_all (disp : Display) (loc : EarthLocation) (aps : Apertures)
    (d : Aligner) (m : Masters) (files : list string) : M unit :=
  for_each files (reduce_frame disp loc aps d m).

(** Lines 54-158, after the two configuration files are loaded. *)
Definition main : M unit :=
  disp <- set_up_ds9 ;;
  let loc := location in
  aps <- set_up_apertures ;;
  let reference_image := night_reference_image night_config in
  d <- call (E_Donuts reference_image) (Donuts reference_image) ;;
  images <- call E_get_image_list get_image_list ;;
  dk <- make_master_dark disp images ;;
  let '(master_dark, dark_exp) := dk in
  master_flat <- make_master_flat disp images master_dark dark_exp ;;
  let m := {| master_dark := master_dark; dark_exp := dark_exp;
              master_flat := master_flat |} in
  let imagetyp := inst_imager_image_keyword inst_config in
  let filter := night_filter night_config in
  files <- call (E_files_filtered images imagetyp filter)
                (files_filtered images imagetyp filter) ;;
  reduce_all disp loc aps d m files.

End Main.

(** ** The script on the mappings

    The same lines 62-158, with every subscript of a configuration where the
    script has it.  A subscript on a missing key raises [KeyError] from the
    mapping that [j.config.load] returned; it is no call of the trace.
    Arguments are evaluated from left to right, before the call. *)

Definition KeyError (key : string) : exn :=
  CollaboratorError ("KeyError: " ++ key)%string.

(** [mapping[key]], then the rest of the computation with its value. *)
Definition getitem {A B} (key : string) (value : option A) (k : A -> M B) : M B :=
  match value with
  | Some v => k v
  | None => fun fs => (Raise (KeyError key), [], fs)
  end.

Notation "x <-[ key ] value ;; k" := (getitem key value (fun x => k))
  (at level 100, value at next level, right associativity).

Section MainOnMappings.
Variables (night_config : RawNight) (inst_config : RawInst).

(** Lines 62-69. *)
Definition set_up_ds9_raw : M Display :=
  ds9 <-[ "ds9" ] raw_ds9 night_config ;;
  if ds9 then
    section <-[ "ds9" ] raw_section_ds9 inst_config ;;
    ds9_window_id <-[ "window_id" ] raw_window_id section ;;
    emit (E_ds9_setup ds9_window_id) ;;;
    ret {| ds9 := ds9; ds9_window_id := Some ds9_window_id; draw_regions := true |}
  else
    ret {| ds9 := ds9; ds9_window_id := None; draw_regions := false |}.

(** Lines 77-84. *)
Definition set_up_apertures_raw : M Apertures :=
  region_file <-[ "region_file" ] raw_region_file night_config ;;
  aps <- call (E_read_region_file region_file) (read_region_file region_file) ;;
  let '(Build_Apertures x y rsi rso) := aps in
  defocused <-[ "defocused" ] raw_defocused night_config ;;
  if negb defocused then
    image <-[ "reference_image" ] raw_reference_image night_config ;;
    sky <-[ "sky" ] raw_section_sky inst_config ;;
    sigma <-[ "background_sigma" ] raw_background_sigma sky ;;
    src <- call (E_source_extract image sigma rsi rso)
                (source_extract image sigma rsi rso) ;;
    let '(source_x, source_y) := src in
    max_sep <-[ "max_sep_shift" ] raw_max_sep_shift night_config ;;
    xy <- call (E_recenter_stars x y source_x source_y max_sep)
               (recenter_stars x y source_x source_y max_sep) ;;
    let '(x, y) := xy in
    ret (Build_Apertures x y rsi rso)
  else
    ret (Build_Apertures x y rsi rso).

(** Lines 101-108. *)
Definition make_master_dark_raw (disp : Display) (images : ImageCollection)
  : M (option Pixels * Q) :=
  imager <-[ "imager" ] raw_section_imager inst_config ;;
  overscan_keyword <-[ "overscan_keyword" ] raw_overscan_keyword imager ;;
  imager <-[ "imager" ] raw_section_imager inst_config ;;
  dark_keyword <-[ "dark_keyword" ] raw_dark_keyword imager ;;
  imager <-[ "imager" ] raw_section_imager inst_config ;;
  exptime_keyword <-[ "exptime_keyword" ] raw_exptime_keyword imager ;;
  master_dark_filename <-[ "master_dark_filename" ]
    raw_master_dark_filename night_config ;;
  let a := {| md_images := images;
              md_overscan_keyword := overscan_keyword;
              md_dark_keyword := dark_keyword;
              md_exptime_keyword := exptime_keyword;
              md_master_dark_filename := master_dark_filename |} in
  r <- call (E_make_master_dark_osc a) (make_master_dark_osc a) ;;
  let '(master_dark, dark_exp) := r in
  (if match master_dark with Some _ => true | None => false end && ds9 disp then
     shown <-[ "master_dark_filename" ] raw_master_dark_filename night_config ;;
     emit (E_ds9_display (ds9_window_id disp) shown) ;;;
     emit (E_sleep 5)
   else ret tt) ;;;
  ret (master_dark, dark_exp).

(** Lines 111-119. *)
Definition make_master_flat_raw (disp : Display) (images : ImageCollection)
    (master_dark : option Pixels) (dark_exp : Q) : M (option Pixels) :=
  filter <-[ "filter" ] raw_filter night_config ;;
  imager <-[ "imager" ] raw_section_imager inst_config ;;
  overscan_keyword <-[ "overscan_keyword" ] raw_overscan_keyword imager ;;
  imager <-[ "imager" ] raw_section_imager inst_config ;;
  flat_keyword <-[ "flat_keyword" ] raw_flat_keyword imager ;;
  imager <-[ "imager" ] raw_section_imager inst_config ;;
  exptime_keyword <-[ "exptime_keyword" ] raw_exptime_keyword imager ;;
  master_flat_filename <-[ "master_flat_filename" ]
    raw_master_flat_filename night_config ;;
  let a := {| mf_images := images;
              mf_filter := filter;
              mf_overscan_keyword := overscan_keyword;
              mf_master_dark := master_dark;
              mf_dark_exp := dark_exp;
              mf_flat_keyword := flat_keyword;
              mf_exptime_keyword := exptime_keyword;
              mf_master_flat_filename := master_flat_filename |} in
  master_flat <- call (E_make_master_flat_osc a) (make_master_flat_osc a) ;;
  (if match master_flat with Some _ => true | None => false end && ds9 disp then
     shown <-[ "master_flat_filename" ] raw_master_flat_filename night_config ;;
     emit (E_ds9_display (ds9_window_id disp) shown) ;;;
     emit (E_sleep 5)
   else ret tt) ;;;
  ret master_flat.

(** Lines 124-158. *)
Definition reduce_frame_raw (disp : Display) (loc : EarthLocation) (aps : Apertures)
    (d : Aligner) (m : Masters) (filename : string) : M unit :=
  emit E_utcnow ;;;
  (if ds9 disp then emit (E_ds9_display (ds9_window_id disp) filename) else ret tt) ;;;
  filter <-[ "filter" ] raw_filter night_config ;;
  imager <-[ "imager" ] raw_section_imager inst_config ;;
  overscan_keyword <-[ "overscan_keyword" ] raw_overscan_keyword imager ;;
  imager <-[ "imager" ] raw_section_imager inst_config ;;
  exptime_keyword <-[ "exptime_keyword" ] raw_exptime_keyword imager ;;
  imager <-[ "imager" ] raw_section_imager inst_config ;;
  ra_keyword <-[ "ra_keyword" ] raw_ra_keyword imager ;;
  imager <-[ "imager" ] raw_section_imager inst_config ;;
  dec_keyword <-[ "dec_keyword" ] raw_dec_keyword imager ;;
  imager <-[ "imager" ] raw_section_imager inst_config ;;
  dateobs_start_keyword <-[ "dateobs_start_keyword" ]
    raw_dateobs_start_keyword imager ;;
  let ca := {| cd_filename := filename;
               cd_filter := filter;
               cd_location := loc;
               cd_master_dark := master_dark m;
               cd_overscan_keyword := overscan_keyword;
               cd_master_flat := master_flat m;
               cd_dark_exp := dark_exp m;
               cd_exptime_keyword := exptime_keyword;
               cd_ra_keyword := ra_keyword;
               cd_dec_keyword := dec_keyword;
               cd_dateobs_start_keyword := dateobs_start_keyword |} in
  r <- call (E_correct_data_osc ca) (correct_data_osc ca) ;;
  let '(data, jd, bjd, hjd) := r in
  shift <- call (E_measure_shift d filename) (measure_shift d filename) ;;
  let sx := py_round (shift_x shift) 2 in
  let sy := py_round (shift_y shift) 2 in
  max_donuts_shift <-[ "max_donuts_shift" ] raw_max_donuts_shift night_config ;;
  if shift_too_big shift max_donuts_shift then
    quarantine filename sx sy
  else
    aperture_radii <-[ "aperture_radii" ] raw_aperture_radii night_config ;;
    section <-[ "ds9" ] raw_section_ds9 inst_config ;;
    index_offset <-[ "index_offset" ] raw_index_offset section ;;
    let pa := {| ph_data := data;
                 ph_shift := shift;
                 ph_x := ap_x aps;
                 ph_y := ap_y aps;
                 ph_rsi := ap_rsi aps;
                 ph_rso := ap_rso aps;
                 ph_aperture_radii := aperture_radii;
                 ph_filename := filename;
                 ph_jd := jd;
                 ph_bjd := bjd;
                 ph_hjd := hjd;
                 ph_ds9_name := ds9_window_id disp;
                 ph_gain := 0.4;
                 ph_draw_regions := draw_regions disp;
                 ph_index_offset := index_offset |} in
    call (E_phot pa) (phot pa) ;;;
    emit E_utcnow ;;;
    emit (E_print Msg_elapsed).

(** Lines 62-158. *)
Definition main_raw : M unit :=
  disp <- set_up_ds9_raw ;;
  observatory <-[ "observatory" ] raw_section_observatory inst_config ;;
  olat <-[ "olat" ] raw_olat observatory ;;
  observatory <-[ "observatory" ] raw_section_observatory inst_config ;;
  olon <-[ "olon" ] raw_olon observatory ;;
  observatory <-[ "observatory" ] raw_section_observatory inst_config ;;
  elev <-[ "elev" ] raw_elev observatory ;;
  let loc := {| lat := olat; lon := olon; height := elev |} in
  aps <- set_up_apertures_raw ;;
  reference_image <-[ "reference_image" ] raw_reference_image night_config ;;
  d <- call (E_Donuts reference_image) (Donuts reference_image) ;;
  images <- call E_get_image_list get_image_list ;;
  dk <- make_master_dark_raw disp images ;;
  let '(master_dark, dark_exp) := dk in
  master_flat <- make_master_flat_raw disp images master_dark dark_exp ;;
  let m := {| master_dark := master_dark; dark_exp := dark_exp;
              master_flat := master_flat |} in
  imager <-[ "imager" ] raw_section_imager inst_config ;;
  imagetyp <-[ "image_keyword" ] raw_image_keyword imager ;;
  filter <-[ "filter" ] raw_filter night_config ;;
  files <- call (E_files_filtered images imagetyp filter)
                (files_filtered images imagetyp filter) ;;
  for_each files (reduce_frame_raw disp loc aps d m).

End MainOnMappings.

(** ** Observing a run *)

Definition outcome {A} (m : M A) (fs : gset string) : result A := (m fs).1.1.
Definition events {A} (m : M A) (fs : gset string) : list Event := (m fs).1.2.
Definition paths_after {A} (m : M A) (fs : gset string) : gset string := (m fs).2.

(** The photometry calls of a trace, in order. *)
Definition phot_calls (evs : list Event) : list PhotArgs :=
  omap (fun e => match e with E_phot a => Some a | _ => None end) evs.

(** The calls of a trace that act on the working directory. *)
Definition touches_paths (e : Event) : bool :=
  match e with
  | E_mkdir _ | E_system _ => true
  | _ => false
  end.

Definition is_mkdir (e : Event) : bool :=
  match e with
  | E_mkdir _ => true
  | _ => false
  end.

(** The calls that belong to the body of the loop and to nothing else. *)
Definition per_frame_call (e : Event) : bool :=
  match e with
  | E_utcnow | E_print _ | E_mkdir _ | E_system _
  | E_correct_data_osc _ | E_measure_shift _ _ | E_phot _ => true
  | _ => false
  end.

(** The calls that produce or change the aperture set. *)
Definition aperture_call (e : Event) : bool :=
  match e with
  | E_read_region_file _ | E_source_extract _ _ _ _
  | E_recenter_stars _ _ _ _ _ => true
  | _ => false
  end.

Definition is_read_region_file (e : Event) : bool :=
  match e with
  | E_read_region_file _ => true
  | _ => false
  end.

Definition is_recenter_stars (e : Event) : bool :=
  match e with
  | E_recenter_stars _ _ _ _ _ => true
  | _ => false
  end.

(** What a frame starts with: the clock, then the display when it is on. *)
Definition frame_opening (disp : Display) (filename : string) : list Event :=
  E_utcnow ::
  (if ds9 disp then [E_ds9_display (ds9_window_id disp) filename] else []).

(** The aperture set a photometry call was given. *)
Definition apertures_of (a : PhotArgs) : Apertures :=
  {| ap_x := ph_x a; ap_y := ph_y a; ap_rsi := ph_rsi a; ap_rso := ph_rso a |}.

(** The verdict of the gate on a frame, from the shift the aligner reports
    for its file. *)
Definition gate_rejects (max_donuts_shift : Q) (d : Aligner) (filename : string)
  : bool :=
  match measure_shift d filename with
  | Ok shift => shift_too_big shift max_donuts_shift
  | Raise _ => false
  end.

Definition gate_accepts (max_donuts_shift : Q) (d : Aligner) (filename : string)
  : bool :=
  match measure_shift d filename with
  | Ok shift => negb (shift_too_big shift max_donuts_shift)
  | Raise _ => false
  end.

(** The shell command of line 147. *)
Definition mv_command (filename : string) : string :=
  ("mv " ++ filename ++ " failed_donuts/")%string.

(** What the quarantine of the frames [rejected], in this order, does to
    the working directory when [fs] are the paths that exist before. *)
Definition quarantine_calls (fs : gset string) (rejected : list string)
  : list Event :=
  match rejected with
  | [] => []
  | _ :: _ =>
      (if bool_decide ("failed_donuts" ∈ fs) then [] else [E_mkdir "failed_donuts"]) ++
      map (fun f => E_system (mv_command f)) rejected
  end.

(** *** Hiding the display

    A photometry call with its two display arguments blanked, and a trace
    with the display calls dropped. *)
Definition without_display (a : PhotArgs) : PhotArgs :=
  {| ph_data := ph_data a;
     ph_shift := ph_shift a;
     ph_x := ph_x a;
     ph_y := ph_y a;
     ph_rsi := ph_rsi a;
     ph_rso := ph_rso a;
     ph_aperture_radii := ph_aperture_radii a;
     ph_filename := ph_filename a;
     ph_jd := ph_jd a;
     ph_bjd := ph_bjd a;
     ph_hjd := ph_hjd a;
     ph_ds9_name := None;
     ph_gain := ph_gain a;
     ph_draw_regions := false;
     ph_index_offset := ph_index_offset a |}.

Definition hide_display_1 (e : Event) : list Event :=
  match e with
  | E_ds9_setup _ | E_ds9_display _ _ | E_sleep _ => []
  | E_phot a => [E_phot (without_display a)]
  | _ => [e]
  end.

Definition hide_display (evs : list Event) : list Event :=
  flat_map hide_display_1 evs.

(** *** The script up to the loop

    The variables that are alive when the loop starts, and lines 54-123 as
    one computation that returns them.  [main] is this followed by the
    loop (lemma [main_is_prepare_then_loop]). *)
Record Ready := {
  r_disp : Display;
  r_aps : Apertures;
  r_d : Aligner;
  r_m : Masters;
  r_files : list string
}.

Definition prepare (night_config : NightConfig) (inst_config : InstConfig)
  : M Ready :=
  disp <- set_up_ds9 night_config inst_config ;;
  aps <- set_up_apertures night_config inst_config ;;
  let reference_image := night_reference_image night_config in
  d <- call (E_Donuts reference_image) (Donuts reference_image) ;;
  images <- call E_get_image_list get_image_list ;;
  dk <- make_master_dark night_config inst_config disp images ;;
  master_flat <- make_master_flat night_config inst_config disp images dk.1 dk.2 ;;
  let imagetyp := inst_imager_image_keyword inst_config in
  let filter := night_filter night_config in
  files <- call (E_files_filtered images imagetyp filter)
                (files_filtered images imagetyp filter) ;;
  ret {| r_disp := disp; r_aps := aps; r_d := d;
         r_m := {| master_dark := dk.1; dark_exp := dk.2;
                   master_flat := master_flat |};
         r_files := files |}.

(** *** Where the arguments of a call come from

    The two masters in [m] are what the calibration collaborators returned
    for the image collection of the working directory. *)
Definition masters_built (night_config : NightConfig) (inst_config : InstConfig)
    (images : ImageCollection) (m : Masters) : Prop :=
  get_image_list = Ok images /\
  make_master_dark_osc (master_dark_args night_config inst_config images)
    = Ok (master_dark m, dark_exp m) /\
  make_master_flat_osc
    (master_flat_args night_config inst_config images (master_dark m) (dark_exp m))
    = Ok (master_flat m).

(** The science frames of the night: the files of the collection with the
    instrument's image type and the night's filter. *)
Definition frames_selected (night_config : NightConfig) (inst_config : InstConfig)
    (images : ImageCollection) (files : list string) : Prop :=
  get_image_list = Ok images /\
  files_filtered images (inst_imager_image_keyword inst_config)
                 (night_filter night_config) = Ok files.

(** For each kind of call that takes computed arguments, what they are. *)
Definition provenance (night_config : NightConfig) (inst_config : InstConfig)
    (e : Event) : Prop :=
  match e with
  | E_make_master_dark_osc a =>
      exists images,
        get_image_list = Ok images /\
        a = master_dark_args night_config inst_config images
  | E_make_master_flat_osc a =>
      exists images md de,
        get_image_list = Ok images /\
        make_master_dark_osc (master_dark_args night_config inst_config images)
          = Ok (md, de) /\
        a = master_flat_args night_config inst_config images md de
  | E_correct_data_osc a =>
      exists images m files,
        masters_built night_config inst_config images m /\
        frames_selected night_config inst_config images files /\
        In (cd_filename a) files /\
        a = correct_args night_config inst_config (location inst_config) m
                         (cd_filename a)
  | E_measure_shift d filename =>
      exists images files,
        Donuts (night_reference_image night_config) = Ok d /\
        frames_selected night_config inst_config images files /\
        In filename files
  | E_phot a =>
      exists disp aps d images m data jd bjd hjd shift,
        outcome (set_up_ds9 night_config inst_config) ∅ = Ok disp /\
        outcome (set_up_apertures night_config inst_config) ∅ = Ok aps /\
        Donuts (night_reference_image night_config) = Ok d /\
        masters_built night_config inst_config images m /\
        correct_data_osc
          (correct_args night_config inst_config (location inst_config) m
                        (ph_filename a)) = Ok (data, jd, bjd, hjd) /\
        measure_shift d (ph_filename a) = Ok shift /\
        shift_too_big shift (night_max_donuts_shift night_config) = false /\
        a = phot_args night_config inst_config disp aps (ph_filename a)
                      data jd bjd hjd shift
  | _ => True
  end.

(** Every call of a computation satisfies [P], whatever paths exist. *)
Definition all_events {A} (P : Event -> Prop) (m : M A) : Prop :=
  forall fs, Forall P (events m fs).

(** Two computations that end the same way, leave the same paths and make
    the same calls once the display is hidden. *)
Definition same_but_display {A} (m m' : M A) : Prop :=
  forall fs,
    outcome m fs = outcome m' fs /\
    hide_display (events m fs) = hide_display (events m' fs) /\
    paths_after m fs = paths_after m' fs.

(** At most [n] calls of a computation are of the kind [f]. *)
Definition at_most {A} (f : Event -> bool) (n : nat) (m : M A) : Prop :=
  forall fs, (length (List.filter f (events m fs)) <= n)%nat.

(** A computation that ends normally, whatever paths exist. *)
Definition returns {A} (m : M A) : Prop :=
  forall fs, exists a, outcome m fs = Ok a.

(** A computation that neither reads nor changes the working directory. *)
Definition stateless {A} (m : M A) : Prop :=
  exists r evs, forall fs, m fs = (r, evs, fs).

(** What the script relies on from [recenter_stars]: the arrays it returns
    are as long as the ones it was given. *)
Definition recenter_keeps_length : Prop :=
  forall x y source_x source_y max_sep x' y',
    recenter_stars x y source_x source_y max_sep = Ok (x', y') ->
    length x' = length x /\ length y' = length y.

(** Whether [phot] returns or raises does not depend on its two display
    arguments. *)
Definition phot_ignores_display : Prop :=
  forall a, phot (without_display a) = phot a.

(** *** Kinds of calls, for counting and ordering *)

Definition is_correct_data_osc (e : Event) : bool :=
  match e with
  | E_correct_data_osc _ => true
  | _ => false
  end.

Definition is_measure_shift (e : Event) : bool :=
  match e with
  | E_measure_shift _ _ => true
  | _ => false
  end.

Definition is_phot (e : Event) : bool :=
  match e with
  | E_phot _ => true
  | _ => false
  end.

Definition is_system (e : Event) : bool :=
  match e with
  | E_system _ => true
  | _ => false
  end.

Definition is_utcnow (e : Event) : bool :=
  match e with
  | E_utcnow => true
  | _ => false
  end.

(** [print(t2-t1)], the last statement of the loop body. *)
Definition is_elapsed (e : Event) : bool :=
  match e with
  | E_print Msg_elapsed => true
  | _ => false
  end.

Definition is_sleep (e : Event) : bool :=
  match e with
  | E_sleep _ => true
  | _ => false
  end.

(** The calls made to or for the DS9 display. *)
Definition is_display_call (e : Event) : bool :=
  match e with
  | E_ds9_setup _ | E_ds9_display _ _ | E_sleep _ => true
  | _ => false
  end.

(** The files given to [correct_data_osc], in order. *)
Definition corrected_files (evs : list Event) : list string :=
  omap (fun e => match e with
                 | E_correct_data_osc a => Some (cd_filename a)
                 | _ => None
                 end) evs.

(** The files given to [measure_shift], in order. *)
Definition measured_files (evs : list Event) : list string :=
  omap (fun e => match e with
                 | E_measure_shift _ f => Some f
                 | _ => None
                 end) evs.

(** The place of a call in the script, one for each call of the
    preparation in the order of the lines (DS9 set-up, region file, source
    extraction, recentring, aligner, image list, master dark, master flat,
    frame selection) and one for the calls of the loop body.  The display of
    an image and the settle delay belong to several places and have none. *)
Definition stage (e : Event) : option nat :=
  match e with
  | E_ds9_setup _ => Some 0%nat
  | E_read_region_file _ => Some 1%nat
  | E_source_extract _ _ _ _ => Some 2%nat
  | E_recenter_stars _ _ _ _ _ => Some 3%nat
  | E_Donuts _ => Some 4%nat
  | E_get_image_list => Some 5%nat
  | E_make_master_dark_osc _ => Some 6%nat
  | E_make_master_flat_osc _ => Some 7%nat
  | E_files_filtered _ _ _ => Some 8%nat
  | E_ds9_display _ _ | E_sleep _ => None
  | _ => Some 9%nat
  end.

(** The stages a trace goes through. *)
Definition stages (evs : list Event) : list nat := omap stage evs.

(** A computation that cannot end normally. *)
Definition never_returns {A} (m : M A) : Prop :=
  forall fs a, outcome m fs <> Ok a.

(** The stages of a computation are taken from [plan], in its order. *)
Definition follows_plan {A} (plan : list nat) (m : M A) : Prop :=
  forall fs, sublist (stages (events m fs)) plan.

(** The stages of the script up to the loop, each once and in the order
    of the lines. *)
Definition plan_before_the_loop : list nat :=
  [0; 1; 2; 3; 4; 5; 6; 7; 8]%nat.

(** The stage of the calls of the loop body. *)
Definition stage_of_the_loop : nat := 9.

(** The files shown on the display, in order. *)
Definition displayed_files (evs : list Event) : list string :=
  omap (fun e => match e with
                 | E_ds9_display _ f => Some f
                 | _ => None
                 end) evs.

(** The waits of lines 108 and 119: each lasts five seconds and comes right
    after one of the two master files was sent to the display. *)
Definition waits_follow_a_master (night_config : NightConfig)
    (evs : list Event) : Prop :=
  forall before s after,
    evs = before ++ E_sleep s :: after ->
    s = 5%Z /\
    exists shown window file,
      before = shown ++ [E_ds9_display window file] /\
      (file = night_master_dark_filename night_config \/
       file = night_master_flat_filename night_config).

(** A computation all of whose waits are of this kind. *)
Definition waits_for_masters_only (night_config : NightConfig) {A}
    (m : M A) : Prop :=
  forall fs, waits_follow_a_master night_config (events m fs).

(** Every collaborator returns on every input. *)
Definition collaborators_return : Prop :=
  (forall f, exists v, read_region_file f = Ok v) /\
  (forall i s a b, exists v, source_extract i s a b = Ok v) /\
  (forall x y sx sy m, exists v, recenter_stars x y sx sy m = Ok v) /\
  (forall r, exists v, Donuts r = Ok v) /\
  (forall d f, exists v, measure_shift d f = Ok v) /\
  (exists v, get_image_list = Ok v) /\
  (forall i t f, exists v, files_filtered i t f = Ok v) /\
  (forall a, exists v, make_master_dark_osc a = Ok v) /\
  (forall a, exists v, make_master_flat_osc a = Ok v) /\
  (forall a, exists v, correct_data_osc a = Ok v) /\
  (forall a, phot a = Ok tt).

End Script.

(** The same night with the display switched on or off. *)
Definition with_ds9 (b : bool) (n : NightConfig) : NightConfig :=
  {| night_ds9 := b;
     night_region_file := night_region_file n;
     night_defocused := night_defocused n;
     night_reference_image := night_reference_image n;
     night_max_sep_shift := night_max_sep_shift n;
     night_master_dark_filename := night_master_dark_filename n;
     night_filter := night_filter n;
     night_master_flat_filename := night_master_flat_filename n;
     night_max_donuts_shift := night_max_donuts_shift n;
     night_aperture_radii := night_aperture_radii n |}.

(** ** A small night to run the script on

    Two apertures at (100,100) and (200,200) with sky radii 5 and 10; no dark
    and no flat frames; four science frames, of which [b.fits] moved by 1.2
    pixels in y.  Pixel data are stood for by the name of the file they came
    from, the aligner by the name of its reference image. *)
Module Demo.

Definition region : Apertures :=
  {| ap_x := [100; 200]; ap_y := [100; 200]; ap_rsi := [5; 5]; ap_rso := [10; 10] |}.

Definition shifts (filename : string) : Shift :=
  if String.eqb filename "a.fits" then {| shift_x := 0.5; shift_y := 0.9 |}
  else if String.eqb filename "b.fits" then {| shift_x := 0.03; shift_y := 1.2 |}
  else if String.eqb filename "c.fits" then {| shift_x := 1.004; shift_y := 0 |}
  else {| shift_x := -1; shift_y := 1 |}.

Definition jastro : @Collaborators string Q string (list string) :=
  {| read_region_file := fun _ => Ok region;
     source_extract := fun _ _ _ _ => Ok ([101; 199.5], [99.5; 200]);
     recenter_stars := fun _ _ source_x source_y _ => Ok (source_x, source_y);
     Donuts := fun reference_image => Ok reference_image;
     measure_shift := fun _ filename => Ok (shifts filename);
     get_image_list := Ok ["a.fits"; "b.fits"; "c.fits"; "d.fits"];
     files_filtered := fun images _ _ => Ok images;
     make_master_dark_osc := fun _ => Ok (None, 30);
     make_master_flat_osc := fun _ => Ok None;
     correct_data_osc := fun a => Ok (cd_filename a, 2460000, 2460000.002, 2460000.001);
     phot := fun _ => Ok tt |}.

Definition night : NightConfig :=
  {| night_ds9 := true;
     night_region_file := "leowasp.reg";
     night_defocused := true;
     night_reference_image := "ref.fits";
     night_max_sep_shift := 3;
     night_master_dark_filename := "master_dark.fits";
     night_filter := "clear";
     night_master_flat_filename := "master_flat.fits";
     night_max_donuts_shift := 1;
     night_aperture_radii := [3; 4; 5] |}.

Definition focused_night : NightConfig :=
  {| night_ds9 := false;
     night_region_file := "leowasp.reg";
     night_defocused := false;
     night_reference_image := "ref.fits";
     night_max_sep_shift := 3;
     night_master_dark_filename := "master_dark.fits";
     night_filter := "clear";
     night_master_flat_filename := "master_flat.fits";
     night_max_donuts_shift := 1;
     night_aperture_radii := [3; 4; 5] |}.

Definition inst : InstConfig :=
  {| inst_ds9_window_id := "leowasp";
     inst_ds9_index_offset := 1;
     inst_observatory_olat := 28.76;
     inst_observatory_olon := -17.88;
     inst_observatory_elev := 2326;
     inst_sky_background_sigma := 3;
     inst_imager_overscan_keyword := "OSCAN";
     inst_imager_dark_keyword := "dark";
     inst_imager_exptime_keyword := "EXPTIME";
     inst_imager_flat_keyword := "flat";
     inst_imager_image_keyword := "science";
     inst_imager_ra_keyword := "RA";
     inst_imager_dec_keyword := "DEC";
     inst_imager_dateobs_start_keyword := "DATE-OBS" |}.

Definition display_on : Display :=
  {| ds9 := true; ds9_window_id := Some "leowasp"; draw_regions := true |}.

Definition no_masters : @Masters string :=
  {| master_dark := None; dark_exp := 30; master_flat := None |}.

End Demo.

(** ** The same night when something goes wrong

    Two variants of the collaborators of [Demo]: in the first the header of
    [c.fits] cannot be read and its correction raises; in the second the
    selection of science frames is empty. *)
Module Mishaps.

Definition bad_header : @Collaborators string Q string (list string) :=
  {| read_region_file := fun _ => Ok Demo.region;
     source_extract := fun _ _ _ _ => Ok ([101; 199.5], [99.5; 200]);
     recenter_stars := fun _ _ source_x source_y _ => Ok (source_x, source_y);
     Donuts := fun reference_image => Ok reference_image;
     measure_shift := fun _ filename => Ok (Demo.shifts filename);
     get_image_list := Ok ["a.fits"; "b.fits"; "c.fits"; "d.fits"];
     files_filtered := fun images _ _ => Ok images;
     make_master_dark_osc := fun _ => Ok (None, 30);
     make_master_flat_osc := fun _ => Ok None;
     correct_data_osc := fun a =>
       if String.eqb (cd_filename a) "c.fits"
       then Raise (CollaboratorError "bad header")
       else Ok (cd_filename a, 2460000, 2460000.002, 2460000.001);
     phot := fun _ => Ok tt |}.

Definition no_science : @Collaborators string Q string (list string) :=
  {| read_region_file := fun _ => Ok Demo.region;
     source_extract := fun _ _ _ _ => Ok ([101; 199.5], [99.5; 200]);
     recenter_stars := fun _ _ source_x source_y _ => Ok (source_x, source_y);
     Donuts := fun reference_image => Ok reference_image;
     measure_shift := fun _ filename => Ok (Demo.shifts filename);
     get_image_list := Ok ["dark1.fits"; "flat1.fits"];
     files_filtered := fun _ _ _ => Ok [];
     make_master_dark_osc := fun _ => Ok (None, 30);
     make_master_flat_osc := fun _ => Ok None;
     correct_data_osc := fun a =>
       Ok (cd_filename a, 2460000, 2460000.002, 2460000.001);
     phot := fun _ => Ok tt |}.

Definition display_off : Display :=
  {| ds9 := false; ds9_window_id := None; draw_regions := false |}.

End Mishaps.

(** ** The same night with calibration frames

    The collaborators of [Demo], except that both masters are built and
    that [a.fits] has drifted 1.002 pixels in x, just over the tolerance of
    the night. *)
Module Calibrated.

Definition shifts (filename : string) : Shift :=
  if String.eqb filename "a.fits" then {| shift_x := 1.002; shift_y := -0.3 |}
  else Demo.shifts filename.

Definition jastro : @Collaborators string Q string (list string) :=
  {| read_region_file := fun _ => Ok Demo.region;
     source_extract := fun _ _ _ _ => Ok ([101; 199.5], [99.5; 200]);
     recenter_stars := fun _ _ source_x source_y _ => Ok (source_x, source_y);
     Donuts := fun reference_image => Ok reference_image;
     measure_shift := fun _ filename => Ok (shifts filename);
     get_image_list := Ok ["a.fits"; "b.fits"; "c.fits"; "d.fits"];
     files_filtered := fun images _ _ => Ok images;
     make_master_dark_osc := fun a => Ok (Some (md_master_dark_filename a), 30);
     make_master_flat_osc := fun a => Ok (Some (mf_master_flat_filename a));
     correct_data_osc := fun a =>
       Ok (cd_filename a, 2460000, 2460000.002, 2460000.001);
     phot := fun _ => Ok tt |}.

End Calibrated.

(** * Properties *)

Example rint_tie_even : rint (5 # 2) = 2%Z /\ rint (7 # 2) = 4%Z /\ rint (-5 # 2) = (-2)%Z.
Proof. repeat split. Qed.

Example gate_scenario_rejected :
  shift_too_big {| shift_x := 3 # 100; shift_y := 12 # 10 |} 1 = true.
Proof. reflexivity. Qed.

Example gate_scenario_accepted :
  shift_too_big {| shift_x := 5 # 10; shift_y := 9 # 10 |} 1 = false.
Proof. reflexivity. Qed.

Example gate_rounds_first :
  shift_too_big {| shift_x := 1004 # 1000; shift_y := 0 |} 1 = false.
Proof. reflexivity. Qed.

(** ** The gate *)

Lemma np_sum_two (a b : bool) :
  (0 <? np_sum [a; b])%Z = a || b.
Proof. destruct a, b; reflexivity. Qed.

Lemma np_greater_true v s : negb (Qle_bool v s) = true <-> s < v.
Proof.
  rewrite negb_true_iff, <- not_true_iff_false, Qle_bool_iff.
  split; [apply Qnot_le_lt | apply Qlt_not_le].
Qed.

Lemma np_greater_false v s : negb (Qle_bool v s) = false <-> v <= s.
Proof. rewrite negb_false_iff. apply Qle_bool_iff. Qed.

(** The frame goes to quarantine exactly when one rounded component is,
    in absolute value, strictly above the tolerance. *)
Lemma shift_too_big_true shift max :
  shift_too_big shift max = true <->
  max < Qabs (py_round (shift_x shift) 2) \/
  max < Qabs (py_round (shift_y shift) 2).
Proof.
  unfold shift_too_big, np_greater. cbn [map]. rewrite np_sum_two.
  rewrite orb_true_iff, !np_greater_true. reflexivity.
Qed.

Lemma shift_too_big_false shift max :
  shift_too_big shift max = false <->
  Qabs (py_round (shift_x shift) 2) <= max /\
  Qabs (py_round (shift_y shift) 2) <= max.
Proof.
  unfold shift_too_big, np_greater. cbn [map]. rewrite np_sum_two.
  rewrite orb_false_iff, !np_greater_false. reflexivity.
Qed.

(** *** Rounding *)

Lemma Zlt_of_Qlt_half (a b : Z) : inject_Z a < inject_Z b + (1 # 2) -> (a <= b)%Z.
Proof.
  intros Hq. apply Z.lt_succ_r. rewrite Zlt_Qlt.
  unfold Z.succ. rewrite inject_Z_plus. change (inject_Z 1) with (1 # 1). lra.
Qed.

(** A number within a half of the integers [-k .. k] rounds into them. *)
Lemma rint_within (q : Q) (k : Z) :
  - inject_Z k - (1 # 2) < q -> q < inject_Z k + (1 # 2) ->
  (- k <= rint q <= k)%Z.
Proof.
  intros Hlo Hhi. unfold rint.
  pose proof (Qfloor_le q) as Hfl. pose proof (Qlt_floor q) as Hfu.
  rewrite inject_Z_plus in Hfu. change (inject_Z 1) with (1 # 1) in Hfu.
  generalize dependent (Qfloor q). intros f Hfl Hfu.
  assert (Hfk : (f <= k)%Z) by (apply Zlt_of_Qlt_half; lra).
  assert (Hkf : (- k <= f + 1)%Z).
  { apply Zlt_of_Qlt_half. rewrite inject_Z_plus, inject_Z_opp.
    change (inject_Z 1) with (1 # 1). lra. }
  destruct (Qcompare_spec (q - inject_Z f) (1 # 2)) as [He | Hl | Hg].
  - assert (Hlt : (f < k)%Z) by (rewrite Zlt_Qlt; lra).
    assert (Hgt : (- k < f + 1)%Z).
    { rewrite Zlt_Qlt, inject_Z_plus, inject_Z_opp.
      change (inject_Z 1) with (1 # 1). lra. }
    destruct (Z.even f); lia.
  - split; [|lia].
    assert (Hgt : (- k < f + 1)%Z); [|lia].
    rewrite Zlt_Qlt, inject_Z_plus, inject_Z_opp.
    change (inject_Z 1) with (1 # 1). lra.
  - split; [lia|].
    assert (Hlt : (f < k)%Z) by (rewrite Zlt_Qlt; lra). lia.
Qed.

Lemma Qabs_hundredths_le (a k : Z) :
  (- k <= a <= k)%Z -> Qabs (a # 100) <= k # 100.
Proof.
  intros Ha. rewrite <- Zabs_Qabs. unfold Qle. simpl. lia.
Qed.

(** With a tolerance of [k] hundredths, a component less than 0.005 above
    it rounds back onto the tolerance or below. *)
Lemma py_round_2_within (v : Q) (k : Z) :
  Qabs v < (k # 100) + 0.005 -> Qabs (py_round v 2) <= k # 100.
Proof.
  intros Hv. unfold py_round. change (Z.to_pos (10 ^ Z.of_nat 2)) with 100%positive.
  change (inject_Z (10 ^ Z.of_nat 2)) with (100 # 1).
  apply Qabs_hundredths_le. apply rint_within.
  - assert (Hk : inject_Z k == (k # 100) * 100).
    { unfold Qeq. simpl. lia. }
    apply Qabs_Qlt_condition in Hv. destruct Hv as [Hv _]. rewrite Hk. lra.
  - assert (Hk : inject_Z k == (k # 100) * 100).
    { unfold Qeq. simpl. lia. }
    apply Qabs_Qlt_condition in Hv. destruct Hv as [_ Hv]. rewrite Hk. lra.
Qed.

(** ** Running the monad *)

Section Facts.
Context {Pixels Time Aligner ImageCollection : Type}.
Context `{jastro : @Collaborators Pixels Time Aligner ImageCollection}.

Local Abbreviation Ev := (@Event Pixels Time Aligner ImageCollection).
Local Abbreviation Run := (@M Pixels Time Aligner ImageCollection).

Lemma bind_run {A B} (m : Run A) (k : A -> Run B) fs :
  bind m k fs =
  match outcome m fs with
  | Ok a =>
      (outcome (k a) (paths_after m fs),
       events m fs ++ events (k a) (paths_after m fs),
       paths_after (k a) (paths_after m fs))
  | Raise e => (Raise e, events m fs, paths_after m fs)
  end.
Proof.
  unfold bind, outcome, events, paths_after.
  destruct (m fs) as [[[a | e] ev] fs1]; cbn; [|reflexivity].
  destruct (k a fs1) as [[r ev'] fs2]; reflexivity.
Qed.

Lemma bind_assoc {A B C} (m : Run A) (k : A -> Run B) (h : B -> Run C) fs :
  bind (bind m k) h fs = bind m (fun a => bind (k a) h) fs.
Proof.
  unfold bind. destruct (m fs) as [[[a | e] ev] fs1]; [|reflexivity].
  destruct (k a fs1) as [[[b | e] ev1] fs2]; [|reflexivity].
  destruct (h b fs2) as [[r ev2] fs3]. rewrite app_assoc. reflexivity.
Qed.

Lemma bind_ret_l {A B} (a : A) (k : A -> Run B) fs :
  bind (ret a) k fs = k a fs.
Proof. unfold bind, ret. destruct (k a fs) as [[r ev] fs1]. reflexivity. Qed.

Lemma bind_ext {A B} (m : Run A) (k k' : A -> Run B) fs :
  (forall a fs1, k a fs1 = k' a fs1) -> bind m k fs = bind m k' fs.
Proof.
  intros Hk. unfold bind. destruct (m fs) as [[[a | e] ev] fs1]; [|reflexivity].
  rewrite Hk. reflexivity.
Qed.

Lemma triple_inv {A B C} (a a' : A) (b b' : B) (c c' : C) :
  (a, b, c) = (a', b', c') -> a' = a /\ b' = b /\ c' = c.
Proof. intros Heq. inversion Heq. auto. Qed.

Lemma singleton_union_absorb (p : string) (fs : gset string) :
  p ∈ fs -> {[p]} ∪ fs = fs.
Proof. intros Hin. apply subseteq_union_1_L, singleton_subseteq_l, Hin. Qed.

Lemma singleton_union_twice (p : string) (fs : gset string) :
  {[p]} ∪ ({[p]} ∪ fs) = {[p]} ∪ fs.
Proof. rewrite (assoc_L (∪)), (idemp_L (∪)). reflexivity. Qed.

Lemma run_eta {A} (m : Run A) fs :
  m fs = (outcome m fs, events m fs, paths_after m fs).
Proof. unfold outcome, events, paths_after. destruct (m fs) as [[r ev] fs1]; reflexivity. Qed.

(** *** Properties of every call of a computation *)

Section AllEvents.
Variable P : Ev -> Prop.

Lemma all_events_ret {A} (a : A) : all_events P (ret a : Run A).
Proof. intros fs. constructor. Qed.

Lemma all_events_emit e : P e -> all_events P (emit e : Run unit).
Proof. intros He fs. repeat constructor. exact He. Qed.

Lemma all_events_call {A} e (r : result A) : P e -> all_events P (call e r : Run A).
Proof. intros He fs. repeat constructor. exact He. Qed.

Lemma all_events_bind {A B} (m : Run A) (k : A -> Run B) :
  all_events P m ->
  (forall a fs, outcome m fs = Ok a -> all_events P (k a)) ->
  all_events P (bind m k).
Proof.
  intros Hm Hk fs. unfold events. rewrite bind_run.
  destruct (outcome m fs) as [a | e] eqn:Hout; cbn.
  - apply Forall_app. split; [apply Hm | apply (Hk a fs Hout)].
  - apply Hm.
Qed.

Lemma all_events_for_each {A} (l : list A) (body : A -> Run unit) :
  (forall a, In a l -> all_events P (body a)) ->
  all_events P (for_each l body).
Proof.
  induction l as [|a l IH]; intros Hbody; cbn [for_each].
  - apply all_events_ret.
  - apply all_events_bind.
    + apply Hbody. left. reflexivity.
    + intros _ _ _. apply IH. intros b Hb. apply Hbody. right. exact Hb.
Qed.

Lemma all_events_os_path_exists p : all_events P (os_path_exists p : Run bool).
Proof. intros fs. constructor. Qed.

Lemma all_events_os_mkdir p : P (E_mkdir p) -> all_events P (os_mkdir p : Run unit).
Proof.
  intros He fs. unfold events, os_mkdir.
  destruct (bool_decide _); repeat constructor; exact He.
Qed.

Lemma all_events_os_system c : P (E_system c) -> all_events P (os_system c : Run unit).
Proof. intros He fs. repeat constructor. exact He. Qed.

Lemma all_events_impl {A} (Q : Ev -> Prop) (m : Run A) :
  (forall e, Q e -> P e) -> all_events Q m -> all_events P m.
Proof. intros HQP Hm fs. eapply List.Forall_impl; [exact HQP | apply Hm]. Qed.

End AllEvents.

Ltac all_step :=
  lazymatch goal with
  | |- forall _, _ => intro
  | |- all_events _ (ret _) => apply all_events_ret
  | |- all_events _ (emit _) => apply all_events_emit
  | |- all_events _ (call _ _) => apply all_events_call
  | |- all_events _ (os_path_exists _) => apply all_events_os_path_exists
  | |- all_events _ (os_mkdir _) => apply all_events_os_mkdir
  | |- all_events _ (os_system _) => apply all_events_os_system
  | |- all_events _ (bind _ _) => apply all_events_bind
  | |- all_events _ (if ?b then _ else _) => destruct b
  | |- all_events _ (match ?x with _ => _ end) => destruct x
  end.

Lemma call_outcome {A} e (r : result A) fs (a : A) :
  outcome (call e r : Run A) fs = Ok a -> r = Ok a.
Proof. intros Hout. exact Hout. Qed.

Lemma events_bind {A B} (m : Run A) (k : A -> Run B) fs :
  events (bind m k) fs =
  events m fs ++
  match outcome m fs with
  | Ok a => events (k a) (paths_after m fs)
  | Raise _ => []
  end.
Proof.
  unfold events at 1. rewrite bind_run.
  destruct (outcome m fs); cbn; [reflexivity | rewrite app_nil_r; reflexivity].
Qed.

Lemma outcome_bind {A B} (m : Run A) (k : A -> Run B) fs :
  outcome (bind m k) fs =
  match outcome m fs with
  | Ok a => outcome (k a) (paths_after m fs)
  | Raise e => Raise e
  end.
Proof. unfold outcome at 1. rewrite bind_run. destruct (outcome m fs); reflexivity. Qed.

Lemma paths_after_bind {A B} (m : Run A) (k : A -> Run B) fs :
  paths_after (bind m k) fs =
  match outcome m fs with
  | Ok a => paths_after (k a) (paths_after m fs)
  | Raise _ => paths_after m fs
  end.
Proof.
  unfold paths_after at 1. rewrite bind_run. destruct (outcome m fs); reflexivity.
Qed.

(** *** Runs that differ in the display only *)

Lemma hide_display_app (l1 l2 : list Ev) :
  hide_display (l1 ++ l2) = hide_display l1 ++ hide_display l2.
Proof. apply flat_map_app. Qed.

Lemma same_but_display_refl {A} (m : Run A) : same_but_display m m.
Proof. intros fs. auto. Qed.

(** Sequencing, when the two first steps may return different values. *)
Lemma same_but_display_bind_rel {A B} (R : A -> A -> Prop)
    (m m' : Run A) (k k' : A -> Run B) :
  (forall fs,
      hide_display (events m fs) = hide_display (events m' fs) /\
      paths_after m fs = paths_after m' fs /\
      match outcome m fs, outcome m' fs with
      | Ok a, Ok a' => R a a'
      | Raise e, Raise e' => e = e'
      | _, _ => False
      end) ->
  (forall a a', R a a' -> same_but_display (k a) (k' a')) ->
  same_but_display (bind m k) (bind m' k').
Proof.
  intros Hm Hk fs. rewrite !outcome_bind, !events_bind, !paths_after_bind,
    !hide_display_app.
  destruct (Hm fs) as (Hev & Hfs & Hout). rewrite Hev, Hfs.
  destruct (outcome m fs) as [a | e], (outcome m' fs) as [a' | e'];
    try contradiction.
  - destruct (Hk a a' Hout (paths_after m' fs)) as (Ho & He & Hp).
    rewrite Ho, He, Hp. auto.
  - subst e'. auto.
Qed.

Lemma same_but_display_bind {A B} (m m' : Run A) (k k' : A -> Run B) :
  same_but_display m m' ->
  (forall a, same_but_display (k a) (k' a)) ->
  same_but_display (bind m k) (bind m' k').
Proof.
  intros Hm Hk. apply (same_but_display_bind_rel eq).
  - intros fs. destruct (Hm fs) as (Ho & He & Hp). rewrite <- Ho.
    destruct (outcome m fs); auto.
  - intros a a' <-. apply Hk.
Qed.

Lemma same_but_display_for_each {A} (l : list A) (body body' : A -> Run unit) :
  (forall a, same_but_display (body a) (body' a)) ->
  same_but_display (for_each l body) (for_each l body').
Proof.
  intros Hbody. induction l as [|a l IH]; cbn [for_each].
  - apply same_but_display_refl.
  - apply same_but_display_bind; [apply Hbody | intros _; exact IH].
Qed.

(** *** Counting calls *)

Lemma at_most_bind {A B} f n1 n2 (m : Run A) (k : A -> Run B) :
  at_most f n1 m -> (forall a, at_most f n2 (k a)) -> at_most f (n1 + n2) (bind m k).
Proof.
  intros Hm Hk fs. rewrite events_bind, List.filter_app, length_app.
  specialize (Hm fs). destruct (outcome m fs) as [a | e].
  - specialize (Hk a (paths_after m fs)). lia.
  - cbn. lia.
Qed.

Lemma at_most_none {A} (f : Ev -> bool) (m : Run A) :
  all_events (fun e => f e = false) m -> at_most f 0 m.
Proof.
  intros Hm fs. specialize (Hm fs).
  induction Hm as [|e l He _ IH]; cbn; [lia|]. rewrite He. exact IH.
Qed.

(** *** Computations that end normally *)

Lemma returns_ret {A} (a : A) : returns (ret a : Run A).
Proof. intros fs. exists a. reflexivity. Qed.

Lemma returns_emit e : returns (emit e : Run unit).
Proof. intros fs. exists tt. reflexivity. Qed.

Lemma returns_call {A} e (r : result A) :
  (exists a, r = Ok a) -> returns (call e r : Run A).
Proof. intros [a ->] fs. exists a. reflexivity. Qed.

Lemma returns_bind {A B} (m : Run A) (k : A -> Run B) :
  returns m -> (forall a, returns (k a)) -> returns (bind m k).
Proof.
  intros Hm Hk fs. rewrite outcome_bind.
  destruct (Hm fs) as [a ->]. apply Hk.
Qed.

Lemma returns_for_each {A} (l : list A) (body : A -> Run unit) :
  (forall a, returns (body a)) -> returns (for_each l body).
Proof.
  intros Hbody. induction l as [|a l IH]; cbn [for_each].
  - apply returns_ret.
  - apply returns_bind; [apply Hbody | intros _; exact IH].
Qed.

Ltac returns_step :=
  lazymatch goal with
  | |- forall _, _ => intro
  | |- returns (ret _) => apply returns_ret
  | |- returns (emit _) => apply returns_emit
  | |- returns (call _ _) => apply returns_call
  | |- returns (bind _ _) => apply returns_bind
  | |- returns (for_each _ _) => apply returns_for_each
  | |- returns (if ?b then _ else _) => destruct b
  | |- returns (match ?x with _ => _ end) => destruct x
  end.

(** *** Computations that leave the working directory alone *)

Lemma stateless_ret {A} (a : A) : stateless (ret a : Run A).
Proof. exists (Ok a), []. reflexivity. Qed.

Lemma stateless_emit e : stateless (emit e : Run unit).
Proof. exists (Ok tt), [e]. reflexivity. Qed.

Lemma stateless_call {A} e (r : result A) : stateless (call e r : Run A).
Proof. exists r, [e]. reflexivity. Qed.

Lemma stateless_bind {A B} (m : Run A) (k : A -> Run B) :
  stateless m -> (forall a, stateless (k a)) -> stateless (bind m k).
Proof.
  intros (r & ev & Hm) Hk. destruct r as [a | e].
  - destruct (Hk a) as (r' & ev' & Hka). exists r', (ev ++ ev').
    intros fs. unfold bind. rewrite Hm, Hka. reflexivity.
  - exists (Raise e), ev. intros fs. unfold bind. rewrite Hm. reflexivity.
Qed.

Lemma stateless_outcome {A} (m : Run A) fs fs0 :
  stateless m -> outcome m fs = outcome m fs0.
Proof. intros (r & ev & Hm). unfold outcome. rewrite !Hm. reflexivity. Qed.

Lemma stateless_events {A} (m : Run A) fs fs0 :
  stateless m -> events m fs = events m fs0.
Proof. intros (r & ev & Hm). unfold events. rewrite !Hm. reflexivity. Qed.

Lemma stateless_paths {A} (m : Run A) fs :
  stateless m -> paths_after m fs = fs.
Proof. intros (r & ev & Hm). unfold paths_after. rewrite Hm. reflexivity. Qed.

(** ** One frame *)

Section Frame.
Variables (night_config : NightConfig) (inst_config : InstConfig).
Variables (disp : Display) (loc : EarthLocation) (aps : Apertures).
Variables (d : Aligner) (m : @Masters Pixels) (filename : string).

Local Abbreviation max_shift := (night_max_donuts_shift night_config).
Local Abbreviation ca := (correct_args night_config inst_config loc m filename).
Local Abbreviation opening := (frame_opening disp filename : list Ev).

Lemma quarantine_run sx sy fs :
  (quarantine filename sx sy : Run unit) fs =
  (Ok tt,
   [E_print (Msg_shift_too_big filename sx sy)] ++
   (if bool_decide ("failed_donuts" ∈ fs) then [] else [E_mkdir "failed_donuts"]) ++
   [E_print (Msg_text (mv_command filename)); E_system (mv_command filename)],
   if bool_decide ("failed_donuts" ∈ fs) then fs else {["failed_donuts"]} ∪ fs).
Proof.
  unfold quarantine, bind, emit, os_path_exists, os_mkdir, os_system, ret, mv_command.
  cbn. destruct (bool_decide ("failed_donuts" ∈ fs)) eqn:Hex; cbn.
  - reflexivity.
  - rewrite Hex. reflexivity.
Qed.

Lemma reduce_frame_correct_raises e fs :
  correct_data_osc ca = Raise e ->
  reduce_frame night_config inst_config disp loc aps d m filename fs =
  (Raise e, opening ++ [E_correct_data_osc ca], fs).
Proof.
  intros Hc. unfold reduce_frame, frame_opening, bind, emit, call, ret.
  rewrite Hc. destruct (ds9 disp); reflexivity.
Qed.

Lemma reduce_frame_measure_raises data jd bjd hjd e fs :
  correct_data_osc ca = Ok (data, jd, bjd, hjd) ->
  measure_shift d filename = Raise e ->
  reduce_frame night_config inst_config disp loc aps d m filename fs =
  (Raise e,
   opening ++ [E_correct_data_osc ca; E_measure_shift d filename], fs).
Proof.
  intros Hc Hm. unfold reduce_frame, frame_opening, bind, emit, call, ret.
  rewrite Hc, Hm. destruct (ds9 disp); reflexivity.
Qed.

Lemma reduce_frame_rejected data jd bjd hjd shift fs :
  correct_data_osc ca = Ok (data, jd, bjd, hjd) ->
  measure_shift d filename = Ok shift ->
  shift_too_big shift max_shift = true ->
  reduce_frame night_config inst_config disp loc aps d m filename fs =
  (Ok tt,
   opening ++
   [E_correct_data_osc ca; E_measure_shift d filename;
    E_print (Msg_shift_too_big filename (py_round (shift_x shift) 2)
                                        (py_round (shift_y shift) 2))] ++
   (if bool_decide ("failed_donuts" ∈ fs) then [] else [E_mkdir "failed_donuts"]) ++
   [E_print (Msg_text (mv_command filename)); E_system (mv_command filename)],
   if bool_decide ("failed_donuts" ∈ fs) then fs else {["failed_donuts"]} ∪ fs).
Proof.
  intros Hc Hm Hbig. unfold reduce_frame, frame_opening, bind, emit, call, ret.
  rewrite Hc, Hm, Hbig.
  destruct (ds9 disp); cbv beta iota zeta; rewrite quarantine_run; reflexivity.
Qed.

Lemma reduce_frame_accepted data jd bjd hjd shift fs :
  correct_data_osc ca = Ok (data, jd, bjd, hjd) ->
  measure_shift d filename = Ok shift ->
  shift_too_big shift max_shift = false ->
  let pa := phot_args night_config inst_config disp aps filename
                      data jd bjd hjd shift in
  reduce_frame night_config inst_config disp loc aps d m filename fs =
  (match phot pa with Ok _ => Ok tt | Raise e => Raise e end,
   opening ++
   [E_correct_data_osc ca; E_measure_shift d filename; E_phot pa] ++
   match phot pa with
   | Ok _ => [E_utcnow; E_print Msg_elapsed]
   | Raise _ => []
   end,
   fs).
Proof.
  intros Hc Hm Hbig pa. unfold reduce_frame, frame_opening, bind, emit, call, ret.
  rewrite Hc, Hm, Hbig. fold pa.
  destruct (ds9 disp), (phot pa); reflexivity.
Qed.

End Frame.

(** ** The loop *)

Section Loop.
Variables (night_config : NightConfig) (inst_config : InstConfig).
Variables (disp : Display) (loc : EarthLocation) (aps : Apertures).
Variables (d : Aligner) (m : @Masters Pixels).

Local Abbreviation max_shift := (night_max_donuts_shift night_config).
Local Abbreviation loop := (reduce_all night_config inst_config disp loc aps d m).
Local Abbreviation body := (reduce_frame night_config inst_config disp loc aps d m).

Lemma phot_calls_opening filename :
  phot_calls (frame_opening disp filename : list Ev) = [].
Proof. unfold frame_opening. destruct (ds9 disp); reflexivity. Qed.

Lemma touches_paths_opening filename :
  List.filter touches_paths (frame_opening disp filename : list Ev) = [].
Proof. unfold frame_opening. destruct (ds9 disp); reflexivity. Qed.

Lemma phot_calls_app (l1 l2 : list Ev) :
  phot_calls (l1 ++ l2) = phot_calls l1 ++ phot_calls l2.
Proof. apply omap_app. Qed.

Lemma loop_cons filename files fs :
  loop (filename :: files) fs =
  match body filename fs with
  | (Ok _, ev, fs1) =>
      match loop files fs1 with
      | (r, ev', fs2) => (r, ev ++ ev', fs2)
      end
  | (Raise e, ev, fs1) => (Raise e, ev, fs1)
  end.
Proof. reflexivity. Qed.

(** The frames that reached the gate are a prefix of the list, the whole
    list when the loop ends normally.  Photometry was called for those the
    gate accepted, and for no other; the working directory was touched for
    those it rejected, and for no other. *)
Lemma reduce_all_reached files : forall fs r evs fs',
  loop files fs = (r, evs, fs') ->
  exists k : nat,
    (k <= length files)%nat /\
    (r = Ok tt -> k = length files) /\
    Forall (fun f => exists shift, measure_shift d f = Ok shift) (take k files) /\
    map ph_filename (phot_calls evs) =
      List.filter (gate_accepts max_shift d) (take k files) /\
    List.filter touches_paths evs =
      quarantine_calls fs (List.filter (gate_rejects max_shift d) (take k files)) /\
    fs' = match List.filter (gate_rejects max_shift d) (take k files) with
          | [] => fs
          | _ :: _ => {["failed_donuts"]} ∪ fs
          end.
Proof.
  induction files as [|f files IH]; intros fs r evs fs' Hrun.
  { apply triple_inv in Hrun as (-> & -> & ->). exists 0%nat.
    repeat split; auto. }
  rewrite loop_cons in Hrun.
  destruct (correct_data_osc (correct_args night_config inst_config loc m f))
    as [[[[data jd] bjd] hjd] | e] eqn:Hc.
  2: { rewrite (reduce_frame_correct_raises _ _ _ _ _ _ _ _ _ _ Hc) in Hrun.
       cbv beta iota in Hrun. apply triple_inv in Hrun as (-> & -> & ->). exists 0%nat. cbn [take List.filter length].
       rewrite phot_calls_app, List.filter_app, phot_calls_opening,
         touches_paths_opening.
       repeat split; auto; try lia. discriminate. }
  destruct (measure_shift d f) as [shift | e] eqn:Hm.
  2: { rewrite (reduce_frame_measure_raises _ _ _ _ _ _ _ _ _ _ _ _ _ _ Hc Hm) in Hrun.
       cbv beta iota in Hrun. apply triple_inv in Hrun as (-> & -> & ->). exists 0%nat. cbn [take List.filter length].
       rewrite phot_calls_app, List.filter_app, phot_calls_opening,
         touches_paths_opening.
       repeat split; auto; try lia. discriminate. }
  assert (Hverdict_a : gate_accepts max_shift d f = negb (shift_too_big shift max_shift))
    by (unfold gate_accepts; rewrite Hm; reflexivity).
  assert (Hverdict_r : gate_rejects max_shift d f = shift_too_big shift max_shift)
    by (unfold gate_rejects; rewrite Hm; reflexivity).
  destruct (shift_too_big shift max_shift) eqn:Hbig.
  - rewrite (reduce_frame_rejected _ _ _ _ _ _ _ _ _ _ _ _ _ _ Hc Hm Hbig) in Hrun.
    cbv beta iota in Hrun. destruct (loop files _) as [[r1 ev1] fs2] eqn:Hrest in Hrun.
    apply triple_inv in Hrun as (-> & -> & ->).
    apply IH in Hrest as (k & Hk & Hall & Hmeas & Hphot & Htouch & Hfs).
    exists (S k). cbn [take List.filter length].
    rewrite Hverdict_a, Hverdict_r. cbn [negb].
    rewrite !phot_calls_app, !List.filter_app, phot_calls_opening,
      touches_paths_opening, Htouch, Hfs.
    assert (Hin : bool_decide
              ("failed_donuts" ∈ (if bool_decide ("failed_donuts" ∈ fs) then fs
                                  else {["failed_donuts"]} ∪ fs)) = true).
    { apply bool_decide_eq_true. case_bool_decide; [assumption|].
      apply elem_of_union_l, elem_of_singleton. reflexivity. }
    repeat split.
    + lia.
    + intros Hr. rewrite (Hall Hr). reflexivity.
    + constructor; [eauto | exact Hmeas].
    + destruct (bool_decide ("failed_donuts" ∈ fs)); cbn; exact Hphot.
    + unfold quarantine_calls at 1. rewrite Hin.
      destruct (List.filter (gate_rejects max_shift d) (take k files)) as [|g gs];
        unfold quarantine_calls; destruct (bool_decide ("failed_donuts" ∈ fs));
        reflexivity.
    + clear Hin.
      destruct (List.filter (gate_rejects max_shift d) (take k files));
        destruct (bool_decide_reflect ("failed_donuts" ∈ fs));
        first [ reflexivity
              | symmetry; apply singleton_union_absorb; assumption
              | apply singleton_union_twice ].
  - pose proof (reduce_frame_accepted night_config inst_config disp loc aps d m f
                  data jd bjd hjd shift fs Hc Hm Hbig) as Hframe.
    cbv zeta in Hframe. rewrite Hframe in Hrun. clear Hframe.
    destruct (phot _) as [[] | e] eqn:Hp in Hrun.
    + cbv beta iota in Hrun.
      destruct (loop files _) as [[r1 ev1] fs2] eqn:Hrest in Hrun.
      apply triple_inv in Hrun as (-> & -> & ->).
      apply IH in Hrest as (k & Hk & Hall & Hmeas & Hphot & Htouch & Hfs).
      exists (S k). cbn [take List.filter length].
      rewrite Hverdict_a, Hverdict_r. cbn [negb].
      rewrite !phot_calls_app, !List.filter_app, phot_calls_opening,
        touches_paths_opening, Htouch, Hfs.
      repeat split.
      * lia.
      * intros Hr. rewrite (Hall Hr). reflexivity.
      * constructor; [eauto | exact Hmeas].
      * cbn. rewrite Hphot. reflexivity.
    + cbv beta iota in Hrun. apply triple_inv in Hrun as (-> & -> & ->). exists 1%nat. cbn [take List.filter length].
      rewrite Hverdict_a, Hverdict_r. cbn [negb].
      rewrite !phot_calls_app, !List.filter_app, phot_calls_opening,
        touches_paths_opening.
      repeat split; auto; try lia; try discriminate.
      constructor; [eauto | constructor].
Qed.

End Loop.

(** ** The script before the loop *)

Ltac stateless_step :=
  lazymatch goal with
  | |- forall _, _ => intro
  | |- stateless (ret _) => apply stateless_ret
  | |- stateless (emit _) => apply stateless_emit
  | |- stateless (call _ _) => apply stateless_call
  | |- stateless (bind _ _) => apply stateless_bind
  | |- stateless (if ?b then _ else _) => destruct b
  | |- stateless (match ?x with _ => _ end) => destruct x
  end.

Section Night.
Variables (night_config : NightConfig) (inst_config : InstConfig).

Local Abbreviation loc := (location inst_config).

Lemma set_up_ds9_stateless :
  stateless (set_up_ds9 night_config inst_config : Run Display).
Proof. unfold set_up_ds9. repeat stateless_step. Qed.

Lemma set_up_apertures_stateless :
  stateless (set_up_apertures night_config inst_config).
Proof. unfold set_up_apertures. repeat stateless_step. Qed.

Lemma make_master_dark_stateless disp images :
  stateless (make_master_dark night_config inst_config disp images).
Proof. unfold make_master_dark. repeat stateless_step. Qed.

Lemma make_master_flat_stateless disp images md de :
  stateless (make_master_flat night_config inst_config disp images md de).
Proof. unfold make_master_flat. repeat stateless_step. Qed.

Lemma prepare_stateless : stateless (prepare night_config inst_config).
Proof.
  unfold prepare.
  repeat first
    [ apply set_up_ds9_stateless | apply set_up_apertures_stateless
    | apply make_master_dark_stateless | apply make_master_flat_stateless
    | stateless_step ].
Qed.

Lemma make_master_dark_outcome disp images fs md de :
  outcome (make_master_dark night_config inst_config disp images) fs = Ok (md, de) ->
  make_master_dark_osc (master_dark_args night_config inst_config images)
    = Ok (md, de).
Proof.
  unfold make_master_dark, outcome, bind, call, emit, ret.
  destruct (make_master_dark_osc _) as [[md' de'] | e]; cbn; [|discriminate].
  destruct (_ && _); cbn; congruence.
Qed.

Lemma make_master_flat_outcome disp images md de fs mfl :
  outcome (make_master_flat night_config inst_config disp images md de) fs = Ok mfl ->
  make_master_flat_osc (master_flat_args night_config inst_config images md de)
    = Ok mfl.
Proof.
  unfold make_master_flat, outcome, bind, call, emit, ret.
  destruct (make_master_flat_osc _) as [mfl' | e]; cbn; [|discriminate].
  destruct (_ && _); cbn; congruence.
Qed.

(** Every call of the quarantine satisfies whatever holds of printing,
    [os.mkdir] and [os.system]. *)
Lemma all_events_quarantine (P : Ev -> Prop) filename sx sy :
  (forall msg, P (E_print msg)) ->
  (forall p, P (E_mkdir p)) ->
  (forall c, P (E_system c)) ->
  all_events P (quarantine filename sx sy).
Proof.
  intros Hprint Hmkdir Hsys. unfold quarantine. repeat all_step; auto.
Qed.

(** The data flow of the whole script. *)
Lemma main_provenance :
  all_events (provenance night_config inst_config) (main night_config inst_config).
Proof.
  unfold main.
  apply all_events_bind.
  { unfold set_up_ds9. repeat all_step; exact I. }
  intros disp fs0 Hdisp.
  rewrite (stateless_outcome _ fs0 ∅ set_up_ds9_stateless) in Hdisp.
  apply all_events_bind.
  { unfold set_up_apertures. repeat all_step; exact I. }
  intros aps fs1 Haps.
  rewrite (stateless_outcome _ fs1 ∅ set_up_apertures_stateless) in Haps.
  apply all_events_bind; [apply all_events_call; exact I|].
  intros d fs2 Hd%call_outcome.
  apply all_events_bind; [apply all_events_call; exact I|].
  intros images fs3 Himages%call_outcome.
  apply all_events_bind.
  { unfold make_master_dark. repeat all_step; try exact I.
    exists images. auto. }
  intros [md de] fs4 Hdark%make_master_dark_outcome.
  apply all_events_bind.
  { unfold make_master_flat. repeat all_step; try exact I.
    exists images, md, de. auto. }
  intros mfl fs5 Hflat%make_master_flat_outcome.
  apply all_events_bind; [apply all_events_call; exact I|].
  intros files fs6 Hfiles%call_outcome.
  assert (Hbuilt : masters_built night_config inst_config images
                     {| master_dark := md; dark_exp := de; master_flat := mfl |})
    by (repeat split; assumption).
  assert (Hsel : frames_selected night_config inst_config images files)
    by (split; assumption).
  unfold reduce_all. apply all_events_for_each. intros filename Hin.
  unfold reduce_frame.
  apply all_events_bind; [apply all_events_emit; exact I|]. intros _ _ _.
  apply all_events_bind; [repeat all_step; exact I|]. intros _ _ _.
  apply all_events_bind.
  { apply all_events_call.
    exists images, {| master_dark := md; dark_exp := de; master_flat := mfl |}, files.
    auto. }
  intros [[[data jd] bjd] hjd] fs7 Hc%call_outcome.
  apply all_events_bind.
  { apply all_events_call. exists images, files. auto. }
  intros shift fs8 Hm%call_outcome.
  destruct (shift_too_big shift _) eqn:Hbig.
  - apply all_events_quarantine; intros; exact I.
  - repeat all_step; try exact I.
    exists disp, aps, d, images,
      {| master_dark := md; dark_exp := de; master_flat := mfl |},
      data, jd, bjd, hjd, shift.
    repeat split; try assumption; apply Hbuilt.
Qed.

(** [main] is the preparation followed by the loop. *)
Lemma main_is_prepare_then_loop fs :
  main night_config inst_config fs =
  bind (prepare night_config inst_config)
       (fun rdy => reduce_all night_config inst_config (r_disp rdy) loc
                              (r_aps rdy) (r_d rdy) (r_m rdy) (r_files rdy)) fs.
Proof.
  unfold main, prepare.
  rewrite bind_assoc. apply bind_ext. intros disp fs0.
  rewrite bind_assoc. apply bind_ext. intros aps fs1.
  rewrite bind_assoc. apply bind_ext. intros d fs2.
  rewrite bind_assoc. apply bind_ext. intros images fs3.
  rewrite bind_assoc. apply bind_ext. intros [md de] fs4. cbn [fst snd].
  rewrite bind_assoc. apply bind_ext. intros mfl fs5.
  rewrite bind_assoc. apply bind_ext. intros files fs6.
  rewrite bind_ret_l. reflexivity.
Qed.

End Night.

(** ** The aperture set *)

Section ApertureSetup.
Variables (night_config : NightConfig) (inst_config : InstConfig).

Local Abbreviation setup := (set_up_apertures night_config inst_config).
Local Abbreviation region_file := (night_region_file night_config).
Local Abbreviation reference_image := (night_reference_image night_config).
Local Abbreviation sigma := (inst_sky_background_sigma inst_config).
Local Abbreviation max_sep := (night_max_sep_shift night_config).

(** C3.  On a defocused night the only call of the aperture block is the
    reading of the region file, and the block returns what that call
    returned.  Otherwise, once the region file is read, sources are
    extracted from the reference image with the sky radii just read; the
    positions read and the sources found go to [recenter_stars], and the
    positions it returns replace the ones read, next to the same radii.
    They are as many as before when [recenter_stars] keeps lengths. *)
Theorem recentering_unless_defocused fs :
  (night_defocused night_config = true ->
     events setup fs = [E_read_region_file region_file] /\
     outcome setup fs = read_region_file region_file) /\
  (night_defocused night_config = false ->
     forall loaded, read_region_file region_file = Ok loaded ->
       (exists rest,
          events setup fs =
            E_read_region_file region_file ::
            E_source_extract reference_image sigma (ap_rsi loaded) (ap_rso loaded) ::
            rest) /\
       (forall source_x source_y,
          source_extract reference_image sigma (ap_rsi loaded) (ap_rso loaded)
            = Ok (source_x, source_y) ->
          events setup fs =
            [E_read_region_file region_file;
             E_source_extract reference_image sigma (ap_rsi loaded) (ap_rso loaded);
             E_recenter_stars (ap_x loaded) (ap_y loaded) source_x source_y max_sep] /\
          (forall x y,
             recenter_stars (ap_x loaded) (ap_y loaded) source_x source_y max_sep
               = Ok (x, y) ->
             outcome setup fs =
               Ok {| ap_x := x; ap_y := y;
                     ap_rsi := ap_rsi loaded; ap_rso := ap_rso loaded |} /\
             (recenter_keeps_length ->
                length x = length (ap_x loaded) /\
                length y = length (ap_y loaded))))).
Proof.
  unfold set_up_apertures, events, outcome, bind, call, ret. split.
  - intros ->. cbn [negb].
    destruct (read_region_file _) as [[x y rsi rso] | e]; cbn; auto.
  - intros -> [x y rsi rso] ->. cbn [negb ap_x ap_y ap_rsi ap_rso]. split.
    + destruct (source_extract _ _ _ _) as [[sx sy] | e]; cbn; [|eauto].
      destruct (recenter_stars _ _ _ _ _) as [[x' y'] | e]; cbn; eauto.
    + intros sx sy ->. split.
      * destruct (recenter_stars _ _ _ _ _) as [[x' y'] | e]; reflexivity.
      * intros x' y' Hre. rewrite Hre. cbn. split; [reflexivity|].
        intros Hlen. exact (Hlen _ _ _ _ _ _ _ Hre).
Qed.

End ApertureSetup.

(** ** The quality gate and the photometry stage *)

(** C1 (amended).  The gate of lines 139-143 lets a frame through exactly
    when, on each axis separately, the absolute value of the shift rounded
    to two decimals is at most the tolerance; a rounded component equal to
    the tolerance passes. *)
Theorem gate_accepts_iff_rounded_within (shift : Shift) (max_donuts_shift : Q) :
  shift_too_big shift max_donuts_shift = false <->
  Qabs (py_round (shift_x shift) 2) <= max_donuts_shift /\
  Qabs (py_round (shift_y shift) 2) <= max_donuts_shift.
Proof.
  unfold shift_too_big, np_greater. cbn [map]. rewrite np_sum_two, orb_false_iff.
  split; intros [Hx Hy]; split;
    first [ apply np_greater_false; assumption
          | apply (proj1 (np_greater_false _ _)); assumption ].
Qed.

Section GateAndPhot.
Variables (night_config : NightConfig) (inst_config : InstConfig).
Variables (disp : Display) (loc : EarthLocation) (aps : Apertures).
Variables (d : Aligner) (m : @Masters Pixels).

Local Abbreviation max_shift := (night_max_donuts_shift night_config).
Local Abbreviation frame := (reduce_frame night_config inst_config disp loc aps d m).
Local Abbreviation loop := (reduce_all night_config inst_config disp loc aps d m).

(** C2.  In the loop over the science frames, photometry is called for the
    frames the gate accepted and for no other: the frames that reached the
    gate are a prefix of the list (the whole list when the loop ends
    normally), and the files handed to [phot] are, in order, those of them
    the gate accepted.  For one frame whose correction and shift
    measurement returned: a rejected frame makes no photometry call and the
    loop goes on; an accepted frame makes exactly one, with its data. *)
Theorem photometry_exactly_on_accepted_frames :
  (forall files fs, exists k : nat,
      (k <= length files)%nat /\
      (outcome (loop files) fs = Ok tt -> k = length files) /\
      Forall (fun f => exists shift, measure_shift d f = Ok shift) (take k files) /\
      map ph_filename (phot_calls (events (loop files) fs)) =
        List.filter (gate_accepts max_shift d) (take k files)) /\
  (forall filename fs data jd bjd hjd shift,
      correct_data_osc (correct_args night_config inst_config loc m filename)
        = Ok (data, jd, bjd, hjd) ->
      measure_shift d filename = Ok shift ->
      (shift_too_big shift max_shift = true ->
         phot_calls (events (frame filename) fs) = [] /\
         outcome (frame filename) fs = Ok tt) /\
      (shift_too_big shift max_shift = false ->
         phot_calls (events (frame filename) fs) =
           [phot_args night_config inst_config disp aps filename
                      data jd bjd hjd shift])).
Proof.
  split.
  - intros files fs.
    destruct (reduce_all_reached night_config inst_config disp loc aps d m files fs
                _ _ _ (run_eta _ _)) as (k & Hk & Hall & Hmeas & Hphot & _).
    exists k. auto.
  - intros filename fs data jd bjd hjd shift Hc Hm. split; intros Hbig.
    + unfold events, outcome.
      rewrite (reduce_frame_rejected _ _ _ _ _ _ _ _ _ _ _ _ _ _ Hc Hm Hbig).
      cbn [fst snd]. split; [|reflexivity].
      rewrite !phot_calls_app, phot_calls_opening.
      destruct (bool_decide _); reflexivity.
    + pose proof (reduce_frame_accepted night_config inst_config disp loc aps d m
                    filename data jd bjd hjd shift fs Hc Hm Hbig) as Hframe.
      cbv zeta in Hframe. unfold events. rewrite Hframe. cbn [fst snd].
      rewrite !phot_calls_app, phot_calls_opening.
      destruct (phot _); reflexivity.
Qed.

(** C10 (amended).  For a frame whose correction and shift measurement
    returned: the verdict is taken on the absolute values of the two shift
    components rounded to two decimals; when the frame is accepted, [phot]
    is given the shift as measured, not the rounded one; so, when the
    tolerance is a whole number of hundredths, a frame whose two raw
    components stay less than half of 0.005 above the tolerance is
    accepted.  That margin keeps a quarter of a hundredth away from the
    ties of the rounding. *)
Theorem gate_rounds_but_phot_gets_measured_shift
    filename fs data jd bjd hjd shift :
  correct_data_osc (correct_args night_config inst_config loc m filename)
    = Ok (data, jd, bjd, hjd) ->
  measure_shift d filename = Ok shift ->
  (shift_too_big shift max_shift = true <->
     max_shift < Qabs (py_round (shift_x shift) 2) \/
     max_shift < Qabs (py_round (shift_y shift) 2)) /\
  (shift_too_big shift max_shift = false ->
     exists a, phot_calls (events (frame filename) fs) = [a] /\
               ph_shift a = shift) /\
  (forall k : Z, max_shift == k # 100 ->
     Qabs (shift_x shift) < max_shift + 0.0025 ->
     Qabs (shift_y shift) < max_shift + 0.0025 ->
     shift_too_big shift max_shift = false).
Proof.
  intros Hc Hm. split; [apply shift_too_big_true|]. split.
  - intros Hbig.
    pose proof (reduce_frame_accepted night_config inst_config disp loc aps d m
                  filename data jd bjd hjd shift fs Hc Hm Hbig) as Hframe.
    cbv zeta in Hframe. unfold events. rewrite Hframe. cbn [fst snd].
    rewrite !phot_calls_app, phot_calls_opening.
    eexists. split; [destruct (phot _); reflexivity | reflexivity].
  - intros k Hk Hx Hy. apply shift_too_big_false.
    rewrite Hk in Hx, Hy |- *.
    split; apply py_round_2_within; lra.
Qed.

End GateAndPhot.

(** ** What every call of a run is given *)

Section WholeRun.
Variables (night_config : NightConfig) (inst_config : InstConfig).

Local Abbreviation run := (main night_config inst_config).

Lemma gain_of_phot_calls (evs : list Ev) :
  Forall (fun e => forall a, e = E_phot a -> ph_gain a = 0.4) evs ->
  Forall (fun a => ph_gain a = 0.4) (phot_calls evs).
Proof.
  induction 1 as [|e evs He _ IH]; [constructor|].
  destruct e; try exact IH. constructor; [apply He; reflexivity | exact IH].
Qed.

Lemma files_and_gains (calls : list (@PhotArgs Pixels Time)) (files : list string) :
  map ph_filename calls = files ->
  Forall (fun a => ph_gain a = 0.4) calls ->
  map (fun a => (ph_filename a, ph_gain a)) calls = map (fun f => (f, 0.4)) files.
Proof.
  intros <- Hgain. induction Hgain as [|a calls Ha _ IH]; [reflexivity|].
  cbn [map]. rewrite Ha, IH. reflexivity.
Qed.

Lemma gain_in_the_loop disp loc aps d m files :
  all_events (fun e => forall a, e = E_phot a -> ph_gain a = 0.4)
             (reduce_all night_config inst_config disp loc aps d m files).
Proof.
  unfold reduce_all. apply all_events_for_each. intros filename _.
  unfold reduce_frame, quarantine.
  repeat all_step;
    lazymatch goal with
    | Ha : _ = E_phot _ |- _ => try discriminate Ha; injection Ha as <-; reflexivity
    end.
Qed.

(** C7.  Every accepted frame is photometered with the gain 0.4.  A frame
    whose correction and shift measurement returned and that the gate
    accepts makes exactly one photometry call, for its file, with gain 0.4.
    When the loop ends normally, its photometry calls are, in order, one
    for each frame the gate accepted, each with gain 0.4.  And whatever the
    two configurations, the collaborators and the frames, no photometry
    call of a run is given another gain. *)
Theorem gain_is_the_literal :
  (forall disp loc aps d m filename fs data jd bjd hjd shift,
      correct_data_osc (correct_args night_config inst_config loc m filename)
        = Ok (data, jd, bjd, hjd) ->
      measure_shift d filename = Ok shift ->
      shift_too_big shift (night_max_donuts_shift night_config) = false ->
      exists a,
        phot_calls
          (events (reduce_frame night_config inst_config disp loc aps d m filename)
                  fs) = [a] /\
        ph_filename a = filename /\ ph_gain a = 0.4) /\
  (forall disp loc aps d m files fs,
      outcome (reduce_all night_config inst_config disp loc aps d m files) fs
        = Ok tt ->
      map (fun a => (ph_filename a, ph_gain a))
          (phot_calls
             (events (reduce_all night_config inst_config disp loc aps d m files)
                     fs)) =
      map (fun f => (f, 0.4))
          (List.filter (gate_accepts (night_max_donuts_shift night_config) d)
                       files)) /\
  (forall fs,
      Forall (fun e => forall a, e = E_phot a -> ph_gain a = 0.4) (events run fs)).
Proof.
  split; [|split].
  - intros disp loc aps d m filename fs data jd bjd hjd shift Hc Hm Hacc.
    pose proof (reduce_frame_accepted night_config inst_config disp loc aps d m
                  filename data jd bjd hjd shift fs Hc Hm Hacc) as Hframe.
    cbv zeta in Hframe. unfold events. rewrite Hframe. cbn [fst snd].
    rewrite !phot_calls_app, phot_calls_opening.
    eexists. split; [destruct (phot _); reflexivity|]. split; reflexivity.
  - intros disp loc aps d m files fs Hend.
    destruct (reduce_all_reached night_config inst_config disp loc aps d m files fs
                _ _ _ (run_eta _ _)) as (k & _ & Hall & _ & Hphot & _).
    rewrite (Hall Hend), firstn_all in Hphot.
    apply files_and_gains; [exact Hphot|].
    apply gain_of_phot_calls, gain_in_the_loop.
  - intros fs.
    eapply List.Forall_impl; [|apply main_provenance].
    intros e Hprov a ->. cbn in Hprov.
    destruct Hprov as (disp & aps & d & images & m & data & jd & bjd & hjd & shift & Hfrom).
    destruct Hfrom as (_ & _ & _ & _ & _ & _ & _ & ->). reflexivity.
Qed.

(** C4.  Within one frame, once the correction has returned, the next call
    is the shift measurement, and it is given the name of the file that the
    loop selected, the one the correction itself was given; it is the only
    shift measurement of the frame; a photometry call that follows carries
    the corrected data next to the shift measured on that file.  Over the
    whole run, every shift measurement is made by the aligner built on the
    reference image, on one of the files selected from the image list. *)
Theorem shift_is_measured_on_the_selected_file :
  (forall disp loc aps d m filename fs data jd bjd hjd,
      correct_data_osc (correct_args night_config inst_config loc m filename)
        = Ok (data, jd, bjd, hjd) ->
      exists rest,
        events (reduce_frame night_config inst_config disp loc aps d m filename) fs =
          frame_opening disp filename ++
          E_correct_data_osc (correct_args night_config inst_config loc m filename) ::
          E_measure_shift d filename :: rest /\
        Forall (fun e => forall d' f, e <> E_measure_shift d' f) rest /\
        (forall a, In (E_phot a) rest ->
           ph_data a = data /\ ph_filename a = filename /\
           measure_shift d filename = Ok (ph_shift a))) /\
  (forall fs,
      Forall (fun e => forall d f, e = E_measure_shift d f ->
                exists images files,
                  Donuts (night_reference_image night_config) = Ok d /\
                  frames_selected night_config inst_config images files /\
                  In f files)
             (events run fs)).
Proof.
  split.
  - intros disp loc aps d m filename fs data jd bjd hjd Hc. unfold events.
    destruct (measure_shift d filename) as [shift | e] eqn:Hm.
    2: { rewrite (reduce_frame_measure_raises _ _ _ _ _ _ _ _ _ _ _ _ _ _ Hc Hm).
         exists []. cbn [fst snd]. split; [reflexivity|].
         split; [constructor | intros a []]. }
    destruct (shift_too_big shift (night_max_donuts_shift night_config)) eqn:Hbig.
    + rewrite (reduce_frame_rejected _ _ _ _ _ _ _ _ _ _ _ _ _ _ Hc Hm Hbig).
      cbn [fst snd]. eexists. split; [reflexivity|].
      destruct (bool_decide _); cbn [app]; split.
      * repeat constructor; discriminate.
      * intros a Hin. repeat (destruct Hin as [Hin | Hin]; [discriminate|]).
        destruct Hin.
      * repeat constructor; discriminate.
      * intros a Hin. repeat (destruct Hin as [Hin | Hin]; [discriminate|]).
        destruct Hin.
    + pose proof (reduce_frame_accepted night_config inst_config disp loc aps d m
                    filename data jd bjd hjd shift fs Hc Hm Hbig) as Hframe.
      cbv zeta in Hframe. rewrite Hframe. clear Hframe.
      cbn [fst snd]. eexists. split; [reflexivity|].
      destruct (phot _) as [[] | e']; cbn [app]; split.
      * repeat constructor; discriminate.
      * intros a [Ha | Hin].
        -- injection Ha as <-. auto.
        -- repeat (destruct Hin as [Hin | Hin]; [discriminate|]). destruct Hin.
      * repeat constructor; discriminate.
      * intros a [Ha | []]. injection Ha as <-. auto.
  - intros fs. eapply List.Forall_impl; [|apply main_provenance].
    intros e Hprov d f ->. exact Hprov.
Qed.

(** *** The run, cut where the loop starts *)

Local Abbreviation before fs := (events (prepare night_config inst_config) fs).
Local Abbreviation during fs :=
  (match outcome (prepare night_config inst_config) fs with
   | Ok rdy =>
       events (reduce_all night_config inst_config (r_disp rdy)
                 (location inst_config) (r_aps rdy) (r_d rdy) (r_m rdy)
                 (r_files rdy))
              (paths_after (prepare night_config inst_config) fs)
   | Raise _ => []
   end).

Lemma run_before_during fs : events run fs = before fs ++ during fs.
Proof.
  unfold events at 1. rewrite main_is_prepare_then_loop.
  apply (events_bind (prepare night_config inst_config)).
Qed.

Lemma no_frame_call_before fs :
  Forall (fun e => per_frame_call e = false) (before fs).
Proof.
  revert fs. change (all_events (fun e => per_frame_call e = false)
                       (prepare night_config inst_config)).
  unfold prepare, set_up_ds9, set_up_apertures, make_master_dark, make_master_flat.
  repeat all_step; reflexivity.
Qed.

Lemma all_events_loop (P : Ev -> Prop) disp loc aps d m files :
  (forall e, aperture_call e = false -> P e) ->
  all_events P (reduce_all night_config inst_config disp loc aps d m files).
Proof.
  intros HP. apply (all_events_impl _ (fun e => aperture_call e = false)); [exact HP|].
  unfold reduce_all. apply all_events_for_each. intros filename _.
  unfold reduce_frame, quarantine. repeat all_step; reflexivity.
Qed.

Lemma no_aperture_call_during fs :
  Forall (fun e => aperture_call e = false) (during fs).
Proof.
  destruct (outcome (prepare night_config inst_config) fs) as [rdy | e];
    [|constructor].
  apply all_events_loop. auto.
Qed.

Lemma set_up_apertures_calls fs :
  (length (List.filter is_read_region_file
             (events (set_up_apertures night_config inst_config) fs)) <= 1)%nat /\
  (length (List.filter is_recenter_stars
             (events (set_up_apertures night_config inst_config) fs)) <= 1)%nat.
Proof.
  unfold set_up_apertures, events, bind, call, ret.
  destruct (read_region_file _) as [[x y rsi rso] | e]; cbn; [|lia].
  destruct (negb _); cbn; [|lia].
  destruct (source_extract _ _ _ _) as [[sx sy] | e]; cbn; [|lia].
  destruct (recenter_stars _ _ _ _ _) as [[x' y'] | e]; cbn; lia.
Qed.

Lemma aperture_calls_before f :
  (forall e, aperture_call e = false -> f e = false) ->
  at_most f 1 (set_up_apertures night_config inst_config) ->
  at_most f 1 (prepare night_config inst_config).
Proof.
  intros Hf Hsetup. unfold prepare.
  apply (at_most_bind f 0 1).
  { apply at_most_none.
    apply (all_events_impl _ (fun e => aperture_call e = false)); [exact Hf|].
    unfold set_up_ds9. repeat all_step; reflexivity. }
  intros disp. apply (at_most_bind f 1 0); [exact Hsetup|].
  intros aps. apply at_most_none.
  apply (all_events_impl _ (fun e => aperture_call e = false)); [exact Hf|].
  unfold make_master_dark, make_master_flat. repeat all_step; reflexivity.
Qed.

(** C5.  The calls of a run fall into those made before the loop and those
    made in it.  The region file is read at most once and the positions are
    recentred at most once, both before the loop, where no call of a frame
    is made; no call of the loop touches the aperture set; and every
    photometry call is given the four arrays that the aperture block
    returned, together with the shift measured on its own file. *)
Theorem apertures_fixed_before_the_loop fs :
  exists before_loop in_loop,
    events run fs = before_loop ++ in_loop /\
    Forall (fun e => per_frame_call e = false) before_loop /\
    Forall (fun e => aperture_call e = false) in_loop /\
    (length (List.filter is_read_region_file before_loop) <= 1)%nat /\
    (length (List.filter is_recenter_stars before_loop) <= 1)%nat /\
    Forall (fun e => forall a, e = E_phot a ->
              outcome (set_up_apertures night_config inst_config) fs
                = Ok (apertures_of a) /\
              exists d,
                Donuts (night_reference_image night_config) = Ok d /\
                measure_shift d (ph_filename a) = Ok (ph_shift a))
           in_loop.
Proof.
  exists (before fs), (during fs).
  split; [apply run_before_during|].
  split; [apply no_frame_call_before|].
  split; [apply no_aperture_call_during|].
  split.
  { apply aperture_calls_before; [intros []; cbn; congruence|].
    intros fs'. apply set_up_apertures_calls. }
  split.
  { apply aperture_calls_before; [intros []; cbn; congruence|].
    intros fs'. apply set_up_apertures_calls. }
  pose proof (main_provenance night_config inst_config fs) as Hprov.
  rewrite run_before_during in Hprov. apply Forall_app in Hprov as [_ Hprov].
  eapply List.Forall_impl; [|exact Hprov].
  intros e He a ->. cbn in He.
  destruct He as (disp & aps & d & images & m & data & jd & bjd & hjd & shift & Hfrom).
  destruct Hfrom as (_ & Haps & Hd & _ & _ & Hm & _ & Ha).
  split.
  - rewrite (stateless_outcome _ fs ∅ (set_up_apertures_stateless _ _)), Haps.
    rewrite Ha. destruct aps. reflexivity.
  - exists d. split; [exact Hd|]. rewrite Hm. rewrite Ha. reflexivity.
Qed.

(** C6.  A master that could not be built is handed on as it is.  When the
    dark construction of a run returned no frame, the flat construction and
    every correction of that run are given no master dark, with the dark
    exposure that came back with it; when the flat construction returned no
    frame, every correction is given no master flat.  The script itself
    raises nothing on the way: if the collaborators return, so does the
    run. *)
Theorem absent_masters_pass_through fs :
  (forall a de,
      In (E_make_master_dark_osc a) (events run fs) ->
      make_master_dark_osc a = Ok (None, de) ->
      (forall fa, In (E_make_master_flat_osc fa) (events run fs) ->
         mf_master_dark fa = None /\ mf_dark_exp fa = de) /\
      (forall ca, In (E_correct_data_osc ca) (events run fs) ->
         cd_master_dark ca = None /\ cd_dark_exp ca = de)) /\
  (forall fa,
      In (E_make_master_flat_osc fa) (events run fs) ->
      make_master_flat_osc fa = Ok None ->
      forall ca, In (E_correct_data_osc ca) (events run fs) ->
        cd_master_flat ca = None) /\
  (collaborators_return -> outcome run fs = Ok tt).
Proof.
  pose proof (main_provenance night_config inst_config fs) as Hprov.
  rewrite List.Forall_forall in Hprov.
  split; [|split].
  - intros a de Ha Hdark. apply Hprov in Ha. cbn in Ha.
    destruct Ha as (images & Himages & ->). split.
    + intros fa Hfa. apply Hprov in Hfa. cbn in Hfa.
      destruct Hfa as (images' & md & de' & Himages' & Hdark' & ->).
      assert (images' = images) as -> by congruence.
      assert (md = None /\ de' = de) as [-> ->] by (split; congruence).
      auto.
    + intros ca Hca. apply Hprov in Hca. cbn in Hca.
      destruct Hca as (images' & m & files & (Himages' & Hdark' & _) & _ & _ & ->).
      assert (images' = images) as -> by congruence.
      cbn. split; congruence.
  - intros fa Hfa Hflat ca Hca. apply Hprov in Hfa, Hca. cbn in Hfa, Hca.
    destruct Hfa as (images & md & de & Himages & Hdark & ->).
    destruct Hca as (images' & m & files & (Himages' & Hdark' & Hflat') & _ & _ & ->).
    assert (images' = images) as -> by congruence.
    assert (md = master_dark m /\ de = dark_exp m) as [-> ->] by (split; congruence).
    cbn. congruence.
  - intros (Hregion & Hextract & Hrecenter & Hdonuts & Hshift & Himages & Hfiles
            & Hdark & Hflat & Hcorrect & Hphot).
    assert (Hreturns : returns run).
    { unfold main, set_up_ds9, set_up_apertures, make_master_dark, make_master_flat,
        reduce_all, reduce_frame.
      repeat first
        [ lazymatch goal with
          | |- returns (quarantine _ _ _) =>
              let fs' := fresh "fs" in
              intros fs'; exists tt; unfold outcome; rewrite quarantine_run; reflexivity
          | |- exists _, phot _ = Ok _ => exists tt; apply Hphot
          | |- exists _, _ = Ok _ => solve [auto]
          end
        | returns_step ]. }
    destruct (Hreturns fs) as [[] Hout]. exact Hout.
Qed.

(** *** The quarantine directory *)

Lemma filter_is_mkdir_touches (l : list Ev) :
  List.filter is_mkdir l = List.filter is_mkdir (List.filter touches_paths l).
Proof.
  induction l as [|e l IH]; [reflexivity|].
  destruct e; cbn; rewrite <- ?IH; reflexivity.
Qed.

Lemma filter_is_mkdir_system (files : list string) :
  List.filter is_mkdir (map (fun f => E_system (mv_command f) : Ev) files) = [].
Proof. induction files as [|f files IH]; [reflexivity | exact IH]. Qed.

Lemma quarantine_calls_mkdir fs rejected :
  List.filter is_mkdir (quarantine_calls fs rejected : list Ev) =
  match rejected with
  | [] => []
  | _ :: _ =>
      if bool_decide ("failed_donuts" ∈ fs) then [] else [E_mkdir "failed_donuts"]
  end.
Proof.
  destruct rejected as [|f rejected]; [reflexivity|].
  unfold quarantine_calls. rewrite List.filter_app, filter_is_mkdir_system.
  destruct (bool_decide _); reflexivity.
Qed.

Lemma filter_none (f g : Ev -> bool) (l : list Ev) :
  (forall e, g e = false -> f e = false) ->
  Forall (fun e => g e = false) l -> List.filter f l = [].
Proof.
  intros Hfg Hl. induction Hl as [|e l He _ IH]; [reflexivity|].
  cbn. rewrite (Hfg e He). exact IH.
Qed.

(** C8.  One quarantine (lines 144-150) always ends normally, so that the
    loop goes on; it creates [failed_donuts] only when that path does not
    exist, leaves it existing, and hands the shell the command that moves
    the file of the frame into it.  Over the loop, the calls that act on
    the working directory are: the creation of the directory, once, at the
    first rejected frame and only if the path did not exist when the loop
    started, then one [mv] for each rejected frame, in order.  Over a whole
    run the directory is created at most once, and never when it exists. *)
Theorem quarantine_directory_created_once :
  (forall filename sx sy fs,
      outcome (quarantine filename sx sy : Run unit) fs = Ok tt /\
      List.filter touches_paths (events (quarantine filename sx sy : Run unit) fs) =
        (if bool_decide ("failed_donuts" ∈ fs) then []
         else [E_mkdir "failed_donuts"]) ++ [E_system (mv_command filename)] /\
      "failed_donuts" ∈ paths_after (quarantine filename sx sy : Run unit) fs) /\
  (forall disp loc aps d m files fs,
      exists k : nat,
        (k <= length files)%nat /\
        (outcome (reduce_all night_config inst_config disp loc aps d m files) fs
           = Ok tt -> k = length files) /\
        List.filter touches_paths
          (events (reduce_all night_config inst_config disp loc aps d m files) fs) =
        quarantine_calls fs
          (List.filter (gate_rejects (night_max_donuts_shift night_config) d)
                       (take k files))) /\
  (forall fs,
      (length (List.filter is_mkdir (events run fs)) <= 1)%nat /\
      ("failed_donuts" ∈ fs -> List.filter is_mkdir (events run fs) = [])).
Proof.
  split; [|split].
  - intros filename sx sy fs. unfold outcome, events, paths_after.
    rewrite quarantine_run. cbn [fst snd app List.filter touches_paths].
    split; [reflexivity|]. split.
    + destruct (bool_decide _); reflexivity.
    + destruct (bool_decide_reflect ("failed_donuts" ∈ fs)); [assumption|].
      apply elem_of_union_l, elem_of_singleton. reflexivity.
  - intros disp loc aps d m files fs.
    destruct (reduce_all_reached night_config inst_config disp loc aps d m files fs
                _ _ _ (run_eta _ _)) as (k & Hk & Hall & _ & _ & Htouch & _).
    exists k. auto.
  - intros fs. rewrite run_before_during, List.filter_app.
    rewrite (filter_none is_mkdir per_frame_call (before fs));
      [|intros []; cbn; congruence | apply no_frame_call_before].
    cbn [app]. rewrite (stateless_paths _ fs (prepare_stateless _ _)).
    destruct (outcome (prepare night_config inst_config) fs) as [rdy | e];
      [|cbn; split; [lia | reflexivity]].
    destruct (reduce_all_reached night_config inst_config (r_disp rdy)
                (location inst_config) (r_aps rdy) (r_d rdy) (r_m rdy) (r_files rdy)
                fs _ _ _ (run_eta _ _)) as (k & _ & _ & _ & _ & Htouch & _).
    rewrite filter_is_mkdir_touches, Htouch, quarantine_calls_mkdir.
    destruct (List.filter _ (take k _)); [cbn; split; [lia | reflexivity]|].
    destruct (bool_decide_reflect ("failed_donuts" ∈ fs)); cbn; split;
      first [lia | reflexivity | contradiction].
Qed.

(** *** The display *)

Lemma phot_calls_hide_display (l : list Ev) :
  phot_calls (hide_display l) = map without_display (phot_calls l).
Proof.
  induction l as [|e l IH]; [reflexivity|].
  change (hide_display (e :: l)) with (hide_display_1 e ++ hide_display l).
  rewrite phot_calls_app, IH. destruct e; reflexivity.
Qed.

Lemma touches_paths_hide_display (l : list Ev) :
  List.filter touches_paths (hide_display l) = List.filter touches_paths l.
Proof.
  induction l as [|e l IH]; [reflexivity|].
  change (hide_display (e :: l)) with (hide_display_1 e ++ hide_display l).
  rewrite List.filter_app, IH. destruct e; reflexivity.
Qed.

Local Abbreviation night_on := (with_ds9 true night_config).
Local Abbreviation night_off := (with_ds9 false night_config).

Lemma main_same_but_display :
  phot_ignores_display ->
  same_but_display (main night_on inst_config) (main night_off inst_config).
Proof.
  intros Hphot. unfold main.
  apply (same_but_display_bind_rel
           (fun disp disp' =>
              disp = {| ds9 := true;
                        ds9_window_id := Some (inst_ds9_window_id inst_config);
                        draw_regions := true |} /\
              disp' = {| ds9 := false; ds9_window_id := None;
                         draw_regions := false |})).
  { intros fs. repeat split; reflexivity. }
  intros disp disp' [-> ->].
  apply same_but_display_bind; [apply same_but_display_refl|]. intros aps.
  apply same_but_display_bind; [apply same_but_display_refl|]. intros d.
  apply same_but_display_bind; [apply same_but_display_refl|]. intros images.
  apply same_but_display_bind.
  { unfold make_master_dark.
    apply same_but_display_bind; [apply same_but_display_refl|].
    intros [[md|] de]; intros fs; repeat split; reflexivity. }
  intros [md de].
  apply same_but_display_bind.
  { unfold make_master_flat.
    apply same_but_display_bind; [apply same_but_display_refl|].
    intros [mfl|]; intros fs; repeat split; reflexivity. }
  intros mfl.
  apply same_but_display_bind; [apply same_but_display_refl|]. intros files.
  unfold reduce_all. apply same_but_display_for_each. intros filename.
  unfold reduce_frame.
  apply same_but_display_bind; [apply same_but_display_refl|]. intros _.
  apply same_but_display_bind; [intros fs; repeat split; reflexivity|]. intros _.
  apply same_but_display_bind; [apply same_but_display_refl|].
  intros [[[data jd] bjd] hjd].
  apply same_but_display_bind; [apply same_but_display_refl|]. intros shift.
  cbn [with_ds9 night_max_donuts_shift].
  destruct (shift_too_big shift _); [apply same_but_display_refl|].
  apply same_but_display_bind; [|intros _; apply same_but_display_refl].
  intros fs. unfold outcome, events, paths_after, call. cbn [fst snd].
  split; [|split; reflexivity].
  rewrite <- (Hphot (phot_args night_on _ _ _ _ _ _ _ _ _)).
  rewrite <- (Hphot (phot_args night_off _ _ _ _ _ _ _ _ _)).
  reflexivity.
Qed.

(** C9.  Take one night twice, with the display on and with it off, from
    the same working directory, the collaborators being the same and [phot]
    returning or raising regardless of its two display arguments.  The two
    runs end the same way and leave the same paths; they build the same
    aperture set; once the display calls are dropped and the two display
    arguments of [phot] blanked, they make the same calls in the same order:
    in particular the same photometry calls (data, shift, apertures, radii,
    file, time stamps) and the same moves to quarantine. *)
Theorem display_does_not_alter_the_run fs :
  phot_ignores_display ->
  outcome (main night_on inst_config) fs = outcome (main night_off inst_config) fs /\
  paths_after (main night_on inst_config) fs =
    paths_after (main night_off inst_config) fs /\
  outcome (set_up_apertures night_on inst_config) fs =
    outcome (set_up_apertures night_off inst_config) fs /\
  hide_display (events (main night_on inst_config) fs) =
    hide_display (events (main night_off inst_config) fs) /\
  map without_display (phot_calls (events (main night_on inst_config) fs)) =
    map without_display (phot_calls (events (main night_off inst_config) fs)) /\
  List.filter touches_paths (events (main night_on inst_config) fs) =
    List.filter touches_paths (events (main night_off inst_config) fs).
Proof.
  intros Hphot.
  destruct (main_same_but_display Hphot fs) as (Hout & Hev & Hfs).
  repeat split; try assumption.
  - rewrite <- !phot_calls_hide_display, Hev. reflexivity.
  - rewrite <- (touches_paths_hide_display (events (main night_on _) fs)), Hev.
    apply touches_paths_hide_display.
Qed.

End WholeRun.

(** * Further properties of the script *)

(** ** More on running the monad *)

Lemma for_each_app {A} (l1 l2 : list A) (body : A -> Run unit) fs :
  for_each (l1 ++ l2) body fs =
  bind (for_each l1 body) (fun _ => for_each l2 body) fs.
Proof.
  revert fs. induction l1 as [|a l1 IH]; intros fs; cbn [app for_each].
  - rewrite bind_ret_l. reflexivity.
  - rewrite bind_assoc. apply bind_ext. intros _ fs1. apply IH.
Qed.

(** *** The stages of a computation *)

Lemma stages_app (l1 l2 : list Ev) : stages (l1 ++ l2) = stages l1 ++ stages l2.
Proof. apply omap_app. Qed.

Lemma follows_plan_silent {A} plan (m : Run A) :
  (forall fs, stages (events m fs) = []) -> follows_plan plan m.
Proof. intros Hm fs. rewrite Hm. apply sublist_nil_l. Qed.

Lemma follows_plan_call {A} e (r : result A) s :
  stage e = Some s -> follows_plan [s] (call e r : Run A).
Proof. intros Hs fs. cbn. rewrite Hs. reflexivity. Qed.

Lemma follows_plan_bind {A B} plan1 plan2 (m : Run A) (k : A -> Run B) :
  follows_plan plan1 m -> (forall a, follows_plan plan2 (k a)) ->
  follows_plan (plan1 ++ plan2) (bind m k).
Proof.
  intros Hm Hk fs. rewrite events_bind, stages_app.
  apply sublist_app; [apply Hm|].
  destruct (outcome m fs) as [a | e]; [apply Hk | apply sublist_nil_l].
Qed.

(** ** The whole run, again *)

Section RunAgain.
Variables (night_config : NightConfig) (inst_config : InstConfig).

Local Abbreviation run := (main night_config inst_config).
Local Abbreviation ready := (prepare night_config inst_config).
Local Abbreviation the_loop :=
  (fun rdy => reduce_all night_config inst_config (r_disp rdy)
                (location inst_config) (r_aps rdy) (r_d rdy) (r_m rdy)
                (r_files rdy)).

(** What the variables hold when the loop starts. *)
Lemma prepare_outcome fs rdy :
  outcome ready fs = Ok rdy ->
  outcome (set_up_ds9 night_config inst_config : Run Display) fs
    = Ok (r_disp rdy) /\
  outcome (set_up_apertures night_config inst_config) fs = Ok (r_aps rdy) /\
  Donuts (night_reference_image night_config) = Ok (r_d rdy) /\
  exists images,
    masters_built night_config inst_config images (r_m rdy) /\
    frames_selected night_config inst_config images (r_files rdy).
Proof.
  unfold prepare. intros Hout.
  rewrite outcome_bind in Hout.
  destruct (outcome (set_up_ds9 _ _) fs) as [disp | e] eqn:Hdisp; [|discriminate].
  rewrite outcome_bind in Hout.
  destruct (outcome (set_up_apertures _ _) _) as [aps | e] eqn:Haps; [|discriminate].
  rewrite (stateless_outcome _ _ fs (set_up_apertures_stateless _ _)) in Haps.
  rewrite outcome_bind in Hout.
  destruct (outcome (call _ (Donuts _)) _) as [d | e] eqn:Hd; [|discriminate].
  apply call_outcome in Hd.
  rewrite outcome_bind in Hout.
  destruct (outcome (call _ get_image_list) _) as [images | e] eqn:Himages;
    [|discriminate].
  apply call_outcome in Himages.
  rewrite outcome_bind in Hout.
  destruct (outcome (make_master_dark _ _ _ _) _) as [[md de] | e] eqn:Hdark;
    [|discriminate].
  apply make_master_dark_outcome in Hdark.
  rewrite outcome_bind in Hout. cbn [fst snd] in Hout.
  destruct (outcome (make_master_flat _ _ _ _ _ _) _) as [mfl | e] eqn:Hflat;
    [|discriminate].
  apply make_master_flat_outcome in Hflat.
  rewrite outcome_bind in Hout.
  destruct (outcome (call _ (files_filtered _ _ _)) _) as [files | e] eqn:Hfiles;
    [|discriminate].
  apply call_outcome in Hfiles.
  injection Hout as <-. cbn.
  repeat split; try assumption. exists images. repeat split; assumption.
Qed.

Lemma run_outcome fs :
  outcome run fs =
  match outcome ready fs with
  | Ok rdy =>
      outcome (reduce_all night_config inst_config (r_disp rdy)
                 (location inst_config) (r_aps rdy) (r_d rdy) (r_m rdy)
                 (r_files rdy)) fs
  | Raise e => Raise e
  end.
Proof.
  pose proof (outcome_bind ready the_loop fs) as Hbind.
  rewrite (stateless_paths _ fs (prepare_stateless _ _)) in Hbind.
  rewrite <- Hbind. unfold outcome. rewrite main_is_prepare_then_loop.
  reflexivity.
Qed.

Lemma run_events fs :
  events run fs =
  events ready fs ++
  match outcome ready fs with
  | Ok rdy =>
      events (reduce_all night_config inst_config (r_disp rdy)
                (location inst_config) (r_aps rdy) (r_d rdy) (r_m rdy)
                (r_files rdy)) fs
  | Raise _ => []
  end.
Proof.
  rewrite run_before_during, (stateless_paths _ fs (prepare_stateless _ _)).
  reflexivity.
Qed.



(** X3.  A frame is corrected only in a run whose whole preparation
    returned: the aperture block, the aligner, the image list, the two
    master constructions and the frame selection; and the file is one of
    the selection. *)
Theorem frames_are_corrected_only_after_the_preparation fs a :
  In (E_correct_data_osc a) (events run fs) ->
  exists aps d images m files,
    outcome (set_up_apertures night_config inst_config) fs = Ok aps /\
    Donuts (night_reference_image night_config) = Ok d /\
    masters_built night_config inst_config images m /\
    frames_selected night_config inst_config images files /\
    In (cd_filename a) files /\
    a = correct_args night_config inst_config (location inst_config) m
                     (cd_filename a).
Proof.
  intros Hin.
  pose proof (main_provenance night_config inst_config fs) as Hprov.
  rewrite List.Forall_forall in Hprov. pose proof (Hprov _ Hin) as Ha. cbn in Ha.
  destruct Ha as (images & m & files & Hbuilt & Hsel & Hfile & Ha).
  rewrite run_events in Hin. apply in_app_or in Hin as [Hin | Hin].
  { pose proof (no_frame_call_before night_config inst_config fs) as Hnone.
    rewrite List.Forall_forall in Hnone. apply Hnone in Hin. discriminate Hin. }
  destruct (outcome ready fs) as [rdy | e] eqn:Hready; [|destruct Hin].
  destruct (prepare_outcome fs rdy Hready) as (_ & Haps & Hd & _).
  exists (r_aps rdy), (r_d rdy), images, m, files.
  repeat (split; [assumption|]). assumption.
Qed.

(** *** The order of the stages *)

Lemma later_in_seq_is_greater (a n s : nat) (later : list nat) (s' : nat) :
  sublist (s :: later) (seq a n) -> In s' later -> (s < s')%nat.
Proof.
  revert a. induction n as [|n IH]; intros a Hsub Hin; cbn [seq] in Hsub.
  - apply sublist_nil_r in Hsub. discriminate Hsub.
  - apply sublist_cons_r in Hsub as [Hsub | (l' & Heq & Hsub)].
    + exact (IH _ Hsub Hin).
    + injection Heq as -> ->.
      apply list_elem_of_In in Hin. apply (sublist_subseteq _ _ Hsub) in Hin.
      apply elem_of_seq in Hin. lia.
Qed.

Lemma prepare_follows_plan : follows_plan plan_before_the_loop ready.
Proof.
  unfold prepare, plan_before_the_loop.
  apply (follows_plan_bind [0%nat] [1; 2; 3; 4; 5; 6; 7; 8]%nat).
  { intros fs. unfold set_up_ds9, events, bind, emit, ret.
    destruct (night_ds9 night_config); cbn; [reflexivity | apply sublist_nil_l]. }
  intros disp.
  apply (follows_plan_bind [1; 2; 3]%nat [4; 5; 6; 7; 8]%nat).
  { intros fs. unfold set_up_apertures, events, bind, call, ret.
    destruct (read_region_file _) as [[x y rsi rso] | e]; cbn;
      [|repeat constructor].
    destruct (negb _); cbn; [|repeat constructor].
    destruct (source_extract _ _ _ _) as [[sx sy] | e]; cbn;
      [|repeat constructor].
    destruct (recenter_stars _ _ _ _ _) as [[x' y'] | e]; cbn; reflexivity. }
  intros aps.
  apply (follows_plan_bind [4%nat] [5; 6; 7; 8]%nat);
    [apply follows_plan_call; reflexivity|]. intros d.
  apply (follows_plan_bind [5%nat] [6; 7; 8]%nat);
    [apply follows_plan_call; reflexivity|]. intros images.
  apply (follows_plan_bind [6%nat] [7; 8]%nat).
  { intros fs. unfold make_master_dark, events, bind, call, emit, ret.
    destruct (make_master_dark_osc _) as [[md de] | e]; cbn; [|reflexivity].
    destruct (_ && _); reflexivity. }
  intros [md de].
  apply (follows_plan_bind [7%nat] [8%nat]).
  { intros fs. unfold make_master_flat, events, bind, call, emit, ret.
    destruct (make_master_flat_osc _) as [mfl | e]; cbn; [|reflexivity].
    destruct (_ && _); reflexivity. }
  intros mfl.
  apply (follows_plan_bind [8%nat] []);
    [apply follows_plan_call; reflexivity|]. intros files.
  apply follows_plan_silent. reflexivity.
Qed.

Lemma loop_stages disp loc aps d m files fs :
  Forall (fun s => s = stage_of_the_loop)
    (stages (events (reduce_all night_config inst_config disp loc aps d m files) fs)).
Proof.
  assert (Hall : all_events (fun e => stage e = Some stage_of_the_loop \/ stage e = None)
                   (reduce_all night_config inst_config disp loc aps d m files)).
  { unfold reduce_all. apply all_events_for_each. intros filename _.
    unfold reduce_frame, quarantine. repeat all_step; cbn; auto. }
  specialize (Hall fs).
  induction Hall as [|e l [He | He] _ IH]; cbn; [constructor| |];
    unfold stages in *; cbn; rewrite He; [constructor; [reflexivity | exact IH] | exact IH].
Qed.

(** X6.  The calls of a run follow the lines of the script and the
    preparation is never repeated.  Leaving the display of an image and
    the settle delay aside, the trace is made of calls of the preparation
    followed by calls of the loop body only; the calls of the preparation
    are a subsequence of: DS9 set-up, region file, source extraction,
    recentring, aligner, image list, master dark, master flat, frame
    selection, so that each of the nine is made at most once and none
    comes before one that precedes it in this list. *)
Theorem run_follows_the_plan fs :
  exists before_loop in_loop,
    stages (events run fs) = before_loop ++ in_loop /\
    sublist before_loop plan_before_the_loop /\
    NoDup before_loop /\
    (forall earlier s later s',
        before_loop = earlier ++ s :: later -> In s' later -> (s < s')%nat) /\
    Forall (fun s => s = stage_of_the_loop) in_loop.
Proof.
  rewrite run_events, stages_app.
  eexists _, _. split; [reflexivity|].
  pose proof (prepare_follows_plan fs) as Hplan.
  split; [exact Hplan|]. split; [|split].
  - eapply sublist_NoDup; [|exact Hplan]. apply (NoDup_seq 0 9).
  - intros earlier s later s' Hcut Hin.
    rewrite Hcut in Hplan.
    apply (later_in_seq_is_greater 0 9 s later s'); [|exact Hin].
    etransitivity; [|exact Hplan]. apply sublist_inserts_l. reflexivity.
  - destruct (outcome ready fs) as [rdy | e]; [apply loop_stages | constructor].
Qed.

(** *** The display *)

(** X7.  With the display switched off in the night configuration, a run
    makes no call to DS9 and never waits, and every photometry call is told
    to draw nothing, with no window name. *)
Theorem headless_run_never_touches_the_display fs :
  night_ds9 night_config = false ->
  Forall (fun e => is_display_call e = false /\
                   forall a, e = E_phot a ->
                     ph_ds9_name a = None /\ ph_draw_regions a = false)
         (events run fs).
Proof.
  intros Hoff. revert fs.
  change (all_events (fun e => is_display_call e = false /\
                               forall a, e = E_phot a ->
                                 ph_ds9_name a = None /\ ph_draw_regions a = false)
                     run).
  unfold main. apply all_events_bind.
  { unfold set_up_ds9. rewrite Hoff. apply all_events_ret. }
  intros disp fs0 Hdisp.
  assert (disp = {| ds9 := false; ds9_window_id := None; draw_regions := false |})
    as ->.
  { unfold set_up_ds9 in Hdisp. rewrite Hoff in Hdisp.
    injection Hdisp as <-. reflexivity. }
  unfold set_up_apertures, make_master_dark, make_master_flat, reduce_all,
    reduce_frame, quarantine.
  cbn [ds9 ds9_window_id draw_regions].
  repeat first
    [ rewrite andb_false_r
    | apply all_events_for_each
    | all_step ];
    (split; [reflexivity | intros a' Ha; try discriminate Ha]).
  injection Ha as <-. cbn. auto.
Qed.

(** *** The waits *)

Lemma waits_follow_app (l1 l2 : list Ev) :
  waits_follow_a_master night_config l1 ->
  waits_follow_a_master night_config l2 ->
  waits_follow_a_master night_config (l1 ++ l2).
Proof.
  intros H1 H2 before s after Heq.
  apply List.app_eq_app in Heq as [l [[-> Hl] | [-> Hl]]].
  - destruct l as [|e l].
    + cbn in Hl. symmetry in Hl.
      destruct (H2 [] s after Hl) as (_ & shown & w & f & Hb & _).
      destruct shown; discriminate Hb.
    + injection Hl as <- ->. exact (H1 before s l eq_refl).
  - destruct (H2 l s after Hl) as (-> & shown & w & f & -> & Hf).
    split; [reflexivity|]. exists (l1 ++ shown), w, f.
    rewrite <- app_assoc. split; [reflexivity | exact Hf].
Qed.

Lemma waits_follow_none (l : list Ev) :
  Forall (fun e => is_sleep e = false) l -> waits_follow_a_master night_config l.
Proof.
  intros Hl before s after ->. apply Forall_app in Hl as [_ Hl].
  inversion Hl as [|e l' He _]. discriminate He.
Qed.

Lemma waits_follow_shown window file :
  file = night_master_dark_filename night_config \/
  file = night_master_flat_filename night_config ->
  waits_follow_a_master night_config
    ([E_ds9_display window file; E_sleep 5] : list Ev).
Proof.
  intros Hfile before s after Heq.
  destruct before as [|e1 [|e2 before]]; cbn in Heq.
  - discriminate Heq.
  - injection Heq as <- <- <-.
    split; [reflexivity|]. exists [], window, file.
    split; [reflexivity | exact Hfile].
  - exfalso. injection Heq as _ _ Heq. destruct before; discriminate Heq.
Qed.

Lemma waits_for_masters_only_bind {A B} (m : Run A) (k : A -> Run B) :
  waits_for_masters_only night_config m ->
  (forall a, waits_for_masters_only night_config (k a)) ->
  waits_for_masters_only night_config (bind m k).
Proof.
  intros Hm Hk fs. rewrite events_bind. apply waits_follow_app; [apply Hm|].
  destruct (outcome m fs) as [a | e]; [apply Hk | apply waits_follow_none; constructor].
Qed.

Lemma waits_for_masters_only_quiet {A} (m : Run A) :
  all_events (fun e => is_sleep e = false) m ->
  waits_for_masters_only night_config m.
Proof. intros Hm fs. apply waits_follow_none, Hm. Qed.

Lemma make_master_dark_waits disp images :
  waits_for_masters_only night_config
    (make_master_dark night_config inst_config disp images) /\
  at_most is_sleep 1 (make_master_dark night_config inst_config disp images).
Proof.
  split; intros fs; unfold make_master_dark, events, bind, call, emit, ret;
    destruct (make_master_dark_osc _) as [[[md|] de] | e]; cbn;
    destruct (ds9 disp); cbn; try lia;
    try solve [apply waits_follow_none; repeat constructor].
  apply (waits_follow_app [_]); [apply waits_follow_none; repeat constructor|].
  apply waits_follow_shown. left. reflexivity.
Qed.

Lemma make_master_flat_waits disp images md de :
  waits_for_masters_only night_config
    (make_master_flat night_config inst_config disp images md de) /\
  at_most is_sleep 1 (make_master_flat night_config inst_config disp images md de).
Proof.
  split; intros fs; unfold make_master_flat, events, bind, call, emit, ret;
    destruct (make_master_flat_osc _) as [[mf|] | e]; cbn;
    destruct (ds9 disp); cbn; try lia;
    try solve [apply waits_follow_none; repeat constructor].
  apply (waits_follow_app [_]); [apply waits_follow_none; repeat constructor|].
  apply waits_follow_shown. right. reflexivity.
Qed.

Ltac quiet :=
  unfold set_up_ds9, set_up_apertures, reduce_all, reduce_frame, quarantine;
  repeat first [ apply all_events_for_each | all_step ]; reflexivity.

(** X8.  The script waits only to let a master be looked at: every wait of
    a run lasts five seconds and comes right after the master dark or the
    master flat was sent to the display, and a run waits at most twice,
    however many frames it shows. *)
Theorem run_waits_only_after_showing_a_master fs :
  waits_follow_a_master night_config (events run fs) /\
  (length (List.filter is_sleep (events run fs)) <= 2)%nat.
Proof.
  split.
  - revert fs. change (waits_for_masters_only night_config run). unfold main.
    apply waits_for_masters_only_bind; [apply waits_for_masters_only_quiet; quiet|].
    intros disp.
    apply waits_for_masters_only_bind; [apply waits_for_masters_only_quiet; quiet|].
    intros aps.
    apply waits_for_masters_only_bind; [apply waits_for_masters_only_quiet; quiet|].
    intros d.
    apply waits_for_masters_only_bind; [apply waits_for_masters_only_quiet; quiet|].
    intros images.
    apply waits_for_masters_only_bind; [apply make_master_dark_waits|].
    intros [md de].
    apply waits_for_masters_only_bind; [apply make_master_flat_waits|].
    intros mf.
    apply waits_for_masters_only_bind; [|intros files];
      apply waits_for_masters_only_quiet; quiet.
  - revert fs. change (at_most is_sleep (0 + (0 + (0 + (0 + (1 + (1 + (0 + 0))))))) run).
    unfold main.
    apply at_most_bind; [apply at_most_none; quiet|]. intros disp.
    apply at_most_bind; [apply at_most_none; quiet|]. intros aps.
    apply at_most_bind; [apply at_most_none; quiet|]. intros d.
    apply at_most_bind; [apply at_most_none; quiet|]. intros images.
    apply at_most_bind; [apply make_master_dark_waits|]. intros [md de].
    apply at_most_bind; [apply make_master_flat_waits|]. intros mf.
    apply at_most_bind; [apply at_most_none; quiet|]. intros files.
    apply at_most_none; quiet.
Qed.

(** *** The radii *)

(** X9.  Whether the positions were recentred or not, every photometry
    call of a run is given the sky radii as they were read from the region
    file, and as many positions as the region file has when
    [recenter_stars] keeps lengths. *)
Theorem photometry_uses_the_radii_of_the_region_file fs loaded :
  read_region_file (night_region_file night_config) = Ok loaded ->
  Forall (fun e => forall a, e = E_phot a ->
            ph_rsi a = ap_rsi loaded /\ ph_rso a = ap_rso loaded /\
            (recenter_keeps_length ->
               length (ph_x a) = length (ap_x loaded) /\
               length (ph_y a) = length (ap_y loaded)))
         (events run fs).
Proof.
  intros Hread.
  eapply List.Forall_impl; [|apply main_provenance].
  intros e Hprov a ->. cbn in Hprov.
  destruct Hprov as (disp & aps & d & images & m & data & jd & bjd & hjd & shift & Hfrom).
  destruct Hfrom as (_ & Haps & _ & _ & _ & _ & _ & ->). cbn.
  revert Haps. unfold set_up_apertures, outcome, bind, call, ret.
  rewrite Hread. destruct loaded as [x y rsi rso]. cbn.
  destruct (negb _); cbn.
  - destruct (source_extract _ _ _ _) as [[sx sy] | e]; cbn; [|discriminate].
    destruct (recenter_stars _ _ _ _ _) as [[x' y'] | e] eqn:Hre; cbn;
      [|discriminate].
    intros [= <-]. cbn. split; [reflexivity|]. split; [reflexivity|].
    intros Hlen. exact (Hlen _ _ _ _ _ _ _ Hre).
  - intros [= <-]. cbn. auto.
Qed.

End RunAgain.

(** ** The loop, again *)

Section LoopAgain.
Variables (night_config : NightConfig) (inst_config : InstConfig).
Variables (disp : Display) (loc : EarthLocation) (aps : Apertures).
Variables (d : Aligner) (m : @Masters Pixels).

Local Abbreviation max_shift := (night_max_donuts_shift night_config).
Local Abbreviation frame := (reduce_frame night_config inst_config disp loc aps d m).
Local Abbreviation loop := (reduce_all night_config inst_config disp loc aps d m).

Lemma loop_app l1 l2 fs :
  loop (l1 ++ l2) fs = bind (loop l1) (fun _ => loop l2) fs.
Proof. apply for_each_app. Qed.

(** X10.  The loop stops at the first frame that raises: when the frames
    before it went through and the frame raises, the loop ends with that
    exception, its calls are those of the frames before followed by those
    of the failing frame, and nothing is done for the frames after it. *)
Theorem loop_stops_at_the_first_exception done f rest fs e :
  outcome (loop done) fs = Ok tt ->
  outcome (frame f) (paths_after (loop done) fs) = Raise e ->
  outcome (loop (done ++ f :: rest)) fs = Raise e /\
  events (loop (done ++ f :: rest)) fs =
    events (loop done) fs ++ events (frame f) (paths_after (loop done) fs) /\
  paths_after (loop (done ++ f :: rest)) fs =
    paths_after (frame f) (paths_after (loop done) fs).
Proof.
  intros Hdone Hf.
  pose proof (loop_app done (f :: rest) fs) as Happ.
  assert (Ho : outcome (loop (done ++ f :: rest)) fs =
               outcome (bind (loop done) (fun _ => loop (f :: rest))) fs)
    by (unfold outcome; rewrite Happ; reflexivity).
  assert (He : events (loop (done ++ f :: rest)) fs =
               events (bind (loop done) (fun _ => loop (f :: rest))) fs)
    by (unfold events; rewrite Happ; reflexivity).
  assert (Hp : paths_after (loop (done ++ f :: rest)) fs =
               paths_after (bind (loop done) (fun _ => loop (f :: rest))) fs)
    by (unfold paths_after; rewrite Happ; reflexivity).
  rewrite Ho, He, Hp. clear Ho He Hp Happ.
  rewrite outcome_bind, events_bind, paths_after_bind, Hdone.
  change (loop (f :: rest)) with (bind (frame f) (fun _ => loop rest)).
  rewrite outcome_bind, events_bind, paths_after_bind, Hf, app_nil_r.
  auto.
Qed.

(** What one frame adds to the counts, when it does not raise. *)
Lemma frame_accounting f fs :
  outcome (frame f) fs = Ok tt ->
  let evs := events (frame f) fs in
  corrected_files evs = [f] /\
  measured_files evs = [f] /\
  (length (phot_calls evs) + length (List.filter is_system evs) = 1)%nat /\
  length (List.filter is_elapsed evs) = length (phot_calls evs) /\
  (length (List.filter is_utcnow evs) = 1 + length (phot_calls evs))%nat.
Proof.
  unfold outcome, events.
  destruct (correct_data_osc (correct_args night_config inst_config loc m f))
    as [[[[data jd] bjd] hjd] | e] eqn:Hc.
  2: { rewrite (reduce_frame_correct_raises _ _ _ _ _ _ _ _ _ _ Hc). discriminate. }
  destruct (measure_shift d f) as [shift | e] eqn:Hm.
  2: { rewrite (reduce_frame_measure_raises _ _ _ _ _ _ _ _ _ _ _ _ _ _ Hc Hm).
       discriminate. }
  destruct (shift_too_big shift max_shift) eqn:Hbig.
  - rewrite (reduce_frame_rejected _ _ _ _ _ _ _ _ _ _ _ _ _ _ Hc Hm Hbig).
    intros _. cbn [fst snd]. unfold frame_opening.
    destruct (ds9 disp), (bool_decide _); cbn; auto.
  - pose proof (reduce_frame_accepted night_config inst_config disp loc aps d m f
                  data jd bjd hjd shift fs Hc Hm Hbig) as Hframe.
    cbv zeta in Hframe. rewrite Hframe. clear Hframe. cbn [fst snd].
    destruct (phot _) as [[] | e]; [|discriminate].
    intros _. unfold frame_opening. destruct (ds9 disp); cbn; auto.
Qed.

(** X11.  When the loop ends normally, every selected frame was corrected
    once and its shift measured once, in the order of the selection; each
    frame was then either photometered or moved to quarantine, never both;
    the elapsed time was printed for the photometered frames only, and the
    clock was read once per frame plus once per photometered frame. *)
Theorem complete_loop_accounting files fs :
  outcome (loop files) fs = Ok tt ->
  corrected_files (events (loop files) fs) = files /\
  measured_files (events (loop files) fs) = files /\
  (length (phot_calls (events (loop files) fs)) +
   length (List.filter is_system (events (loop files) fs)) = length files)%nat /\
  length (List.filter is_elapsed (events (loop files) fs)) =
    length (phot_calls (events (loop files) fs)) /\
  (length (List.filter is_utcnow (events (loop files) fs)) =
   length files + length (phot_calls (events (loop files) fs)))%nat.
Proof.
  revert fs. induction files as [|f files IH]; intros fs Hout.
  { cbn. auto. }
  change (loop (f :: files)) with (bind (frame f) (fun _ => loop files)) in *.
  rewrite outcome_bind in Hout. rewrite events_bind.
  destruct (outcome (frame f) fs) as [[] | e] eqn:Hf; [|discriminate].
  destruct (frame_accounting f fs Hf) as (Hc & Hm & Hps & Hel & Hut).
  destruct (IH _ Hout) as (Hc' & Hm' & Hps' & Hel' & Hut').
  unfold corrected_files, measured_files, phot_calls in *.
  rewrite !omap_app, !List.filter_app, !length_app.
  rewrite Hc, Hm, Hc', Hm'. cbn [app length].
  repeat split; try reflexivity; lia.
Qed.

Lemma frame_shown_and_corrected f fs :
  displayed_files (events (frame f) fs) = (if ds9 disp then [f] else []) /\
  corrected_files (events (frame f) fs) = [f].
Proof.
  unfold events.
  destruct (correct_data_osc (correct_args night_config inst_config loc m f))
    as [[[[data jd] bjd] hjd] | e] eqn:Hc.
  2: { rewrite (reduce_frame_correct_raises _ _ _ _ _ _ _ _ _ _ Hc).
       unfold frame_opening. destruct (ds9 disp); cbn; auto. }
  destruct (measure_shift d f) as [shift | e] eqn:Hm.
  2: { rewrite (reduce_frame_measure_raises _ _ _ _ _ _ _ _ _ _ _ _ _ _ Hc Hm).
       unfold frame_opening. destruct (ds9 disp); cbn; auto. }
  destruct (shift_too_big shift max_shift) eqn:Hbig.
  - rewrite (reduce_frame_rejected _ _ _ _ _ _ _ _ _ _ _ _ _ _ Hc Hm Hbig).
    unfold frame_opening. destruct (ds9 disp), (bool_decide _); cbn; auto.
  - pose proof (reduce_frame_accepted night_config inst_config disp loc aps d m f
                  data jd bjd hjd shift fs Hc Hm Hbig) as Hframe.
    cbv zeta in Hframe. rewrite Hframe. clear Hframe.
    unfold frame_opening. destruct (ds9 disp), (phot _); cbn; auto.
Qed.

(** X12.  The frames handed to [correct_data_osc] are the first frames of
    the selection, in its order, without gap or repetition; with the display
    on, exactly these frames are shown, and with it off none is. *)
Theorem corrected_frames_are_a_prefix_and_are_shown files fs :
  corrected_files (events (loop files) fs) `prefix_of` files /\
  displayed_files (events (loop files) fs) =
    (if ds9 disp then corrected_files (events (loop files) fs) else []).
Proof.
  revert fs. induction files as [|f files IH]; intros fs.
  { cbn. split; [reflexivity | destruct (ds9 disp); reflexivity]. }
  change (loop (f :: files)) with (bind (frame f) (fun _ => loop files)).
  rewrite events_bind.
  destruct (frame_shown_and_corrected f fs) as [Hshown Hcorr].
  unfold corrected_files, displayed_files in *. rewrite !omap_app, Hshown, Hcorr.
  destruct (outcome (frame f) fs) as [[] | e].
  - destruct (IH (paths_after (frame f) fs)) as [Hpre Hdisp]. split.
    + cbn [app]. apply prefix_cons. exact Hpre.
    + rewrite Hdisp. destruct (ds9 disp); reflexivity.
  - cbn. split.
    + apply prefix_cons, prefix_nil.
    + destruct (ds9 disp); reflexivity.
Qed.

End LoopAgain.

(** ** The configuration keys *)

Section Mappings.

(** On two mappings that have every key, the script with its
    subscripts is the script on the two records: nothing is lost by taking
    the configurations as records. *)
Lemma main_raw_on_complete_mappings (n : NightConfig) (i : InstConfig) :
  main_raw (complete_night n) (complete_inst i) = main n i.
Proof. reflexivity. Qed.

(** X13.  Keys that are read on one branch only.  With the display off the
    window id is never read: setting or removing it changes nothing.  On a
    defocused night neither the maximum separation nor the [sky] section is
    read. *)
Theorem keys_of_the_branch_not_taken (night : RawNight) (inst : RawInst) :
  (raw_ds9 night = Some false ->
   forall v, main_raw night (with_window_id v inst) = main_raw night inst) /\
  (raw_defocused night = Some true ->
   forall v sky,
     main_raw (with_max_sep_shift v night) (with_section_sky sky inst)
     = main_raw night inst).
Proof.
  split.
  - intros Hoff v. destruct night, inst as [[[w io]|] obs sky im];
      cbn in Hoff; subst; reflexivity.
  - intros Hdefocused v sky. destruct night, inst as [sec obs sky' im];
      cbn in Hdefocused; subst; reflexivity.
Qed.

(** *** The keys that every normal run has read *)

Lemma never_returns_missing {A B} key (k : A -> Run B) :
  never_returns (getitem key None k).
Proof. intros fs a. discriminate. Qed.

Lemma never_returns_bind_l {A B} (m : Run A) (k : A -> Run B) :
  never_returns m -> never_returns (bind m k).
Proof.
  intros Hm fs b. rewrite outcome_bind.
  destruct (outcome m fs) as [a | e] eqn:Hout; [|discriminate].
  exfalso. exact (Hm fs a Hout).
Qed.

Lemma never_returns_bind_r {A B} (m : Run A) (k : A -> Run B) :
  (forall a, never_returns (k a)) -> never_returns (bind m k).
Proof.
  intros Hk fs b. rewrite outcome_bind.
  destruct (outcome m fs) as [a | e]; [apply Hk | discriminate].
Qed.

Ltac read_keys :=
  cbn [raw_ds9 raw_region_file raw_defocused raw_reference_image
       raw_max_sep_shift raw_master_dark_filename raw_filter
       raw_master_flat_filename raw_max_donuts_shift raw_aperture_radii
       raw_section_ds9 raw_section_observatory raw_section_sky raw_section_imager
       raw_olat raw_olon raw_elev raw_overscan_keyword raw_dark_keyword
       raw_exptime_keyword raw_flat_keyword raw_image_keyword].

Ltac never_returns_step :=
  lazymatch goal with
  | |- forall _, _ => intro
  | |- never_returns (getitem _ None _) => apply never_returns_missing
  | |- never_returns (getitem ?key (Some ?v) ?k) =>
      change (never_returns (k v)); cbv beta; read_keys
  | |- never_returns (getitem _ ?o _) => destruct o
  | |- never_returns (bind (set_up_ds9_raw _ _) _) =>
      first [ apply never_returns_bind_l; unfold set_up_ds9_raw; read_keys;
              solve [repeat never_returns_step]
            | apply never_returns_bind_r ]
  | |- never_returns (bind (set_up_apertures_raw _ _) _) =>
      first [ apply never_returns_bind_l; unfold set_up_apertures_raw; read_keys;
              solve [repeat never_returns_step]
            | apply never_returns_bind_r ]
  | |- never_returns (bind (make_master_dark_raw _ _ _ _) _) =>
      first [ apply never_returns_bind_l; unfold make_master_dark_raw; read_keys;
              solve [repeat never_returns_step]
            | apply never_returns_bind_r ]
  | |- never_returns (bind (make_master_flat_raw _ _ _ _ _ _) _) =>
      first [ apply never_returns_bind_l; unfold make_master_flat_raw; read_keys;
              solve [repeat never_returns_step]
            | apply never_returns_bind_r ]
  | |- never_returns (bind _ _) => apply never_returns_bind_r
  | |- never_returns (match ?x with _ => _ end) => destruct x
  end.

Ltac key_is_needed Hout :=
  lazymatch goal with
  | |- is_Some (Some _) => eexists; reflexivity
  | |- is_Some None =>
      exfalso; revert Hout;
      lazymatch goal with
      | |- outcome ?m ?fs = Ok ?a -> False =>
          cut (never_returns m); [intros Hnever Hout'; exact (Hnever fs a Hout')|]
      end;
      unfold main_raw; read_keys;
      solve [repeat never_returns_step]
  end.

(** X14.  The keys of the preparation are read in every run: a run of the
    script that ends normally had, in the night configuration, [ds9],
    [region_file], [defocused], [reference_image], [master_dark_filename],
    [filter] and [master_flat_filename], and, in the instrument
    configuration, the [observatory] section with [olat], [olon] and [elev]
    and the [imager] section with [overscan_keyword], [dark_keyword],
    [exptime_keyword], [flat_keyword] and [image_keyword]. *)
Theorem normal_end_has_read_the_preparation_keys (night : RawNight) (inst : RawInst) fs :
  outcome (main_raw night inst) fs = Ok tt ->
  (is_Some (raw_ds9 night) /\ is_Some (raw_region_file night) /\
   is_Some (raw_defocused night) /\ is_Some (raw_reference_image night) /\
   is_Some (raw_master_dark_filename night) /\ is_Some (raw_filter night) /\
   is_Some (raw_master_flat_filename night)) /\
  (exists observatory,
      raw_section_observatory inst = Some observatory /\
      is_Some (raw_olat observatory) /\ is_Some (raw_olon observatory) /\
      is_Some (raw_elev observatory)) /\
  (exists imager,
      raw_section_imager inst = Some imager /\
      is_Some (raw_overscan_keyword imager) /\ is_Some (raw_dark_keyword imager) /\
      is_Some (raw_exptime_keyword imager) /\ is_Some (raw_flat_keyword imager) /\
      is_Some (raw_image_keyword imager)).
Proof.
  intros Hout.
  destruct night as [n_ds9 n_region n_defocused n_reference n_sep n_dark n_filter
                       n_flat n_tolerance n_radii].
  destruct inst as [i_ds9 i_observatory i_sky i_imager].
  cbn [raw_ds9 raw_region_file raw_defocused raw_reference_image
       raw_master_dark_filename raw_filter raw_master_flat_filename
       raw_section_observatory raw_section_imager].
  split; [|split].
  - repeat lazymatch goal with |- _ /\ _ => split end.
    + destruct n_ds9; key_is_needed Hout.
    + destruct n_region; key_is_needed Hout.
    + destruct n_defocused; key_is_needed Hout.
    + destruct n_reference; key_is_needed Hout.
    + destruct n_dark; key_is_needed Hout.
    + destruct n_filter; key_is_needed Hout.
    + destruct n_flat; key_is_needed Hout.
  - destruct i_observatory as [[o_lat o_lon o_elev]|].
    2: { exfalso. assert (Hnone : is_Some (@None unit)); [|destruct Hnone; discriminate].
         key_is_needed Hout. }
    eexists. split; [reflexivity|]. cbn [raw_olat raw_olon raw_elev].
    repeat lazymatch goal with |- _ /\ _ => split end.
    + destruct o_lat; key_is_needed Hout.
    + destruct o_lon; key_is_needed Hout.
    + destruct o_elev; key_is_needed Hout.
  - destruct i_imager as [[k_overscan k_dark k_exptime k_flat k_image k_ra k_dec
                             k_dateobs]|].
    2: { exfalso. assert (Hnone : is_Some (@None unit)); [|destruct Hnone; discriminate].
         key_is_needed Hout. }
    eexists. split; [reflexivity|].
    cbn [raw_overscan_keyword raw_dark_keyword raw_exptime_keyword raw_flat_keyword
         raw_image_keyword].
    repeat lazymatch goal with |- _ /\ _ => split end.
    + destruct k_overscan; key_is_needed Hout.
    + destruct k_dark; key_is_needed Hout.
    + destruct k_exptime; key_is_needed Hout.
    + destruct k_flat; key_is_needed Hout.
    + destruct k_image; key_is_needed Hout.
Qed.

Section OneFrame.
Variables (n : NightConfig) (i : InstConfig).
Variables (disp : Display) (loc : EarthLocation) (aps : Apertures).
Variables (d : Aligner) (m : @Masters Pixels) (filename : string).

Local Abbreviation ca := (correct_args n i loc m filename).
Local Abbreviation reached_the_gate :=
  (frame_opening disp filename ++
   [E_correct_data_osc ca; E_measure_shift d filename] : list Ev).

(** X15.  The tolerance is looked up late.  Without the key
    [max_donuts_shift], a frame is still corrected and its shift measured;
    only then does the script stop, with [KeyError], before any verdict:
    nothing is moved and nothing is photometered. *)
Theorem missing_tolerance_is_noticed_after_the_measurement fs data jd bjd hjd shift :
  correct_data_osc ca = Ok (data, jd, bjd, hjd) ->
  measure_shift d filename = Ok shift ->
  reduce_frame_raw (with_max_donuts_shift None (complete_night n)) (complete_inst i)
                   disp loc aps d m filename fs
  = (Raise (KeyError "max_donuts_shift"), reached_the_gate, fs).
Proof.
  intros Hc Hm. unfold reduce_frame_raw, frame_opening, bind, emit, call, ret.
  cbn -[correct_data_osc measure_shift].
  change (correct_data_osc _) with (correct_data_osc ca). rewrite Hc, Hm.
  destruct (ds9 disp); reflexivity.
Qed.

(** X16.  The aperture radii and the index offset are looked up for an
    accepted frame only.  Without [aperture_radii], or without the [ds9]
    section of the instrument, a rejected frame goes to quarantine as with
    complete configurations, and an accepted frame stops the script with
    [KeyError] before [phot] is called. *)
Theorem photometry_keys_are_read_for_accepted_frames_only fs data jd bjd hjd shift :
  correct_data_osc ca = Ok (data, jd, bjd, hjd) ->
  measure_shift d filename = Ok shift ->
  (shift_too_big shift (night_max_donuts_shift n) = true ->
   reduce_frame_raw (with_aperture_radii None (complete_night n))
                    (with_section_ds9 None (complete_inst i))
                    disp loc aps d m filename fs
   = reduce_frame n i disp loc aps d m filename fs) /\
  (shift_too_big shift (night_max_donuts_shift n) = false ->
   reduce_frame_raw (with_aperture_radii None (complete_night n)) (complete_inst i)
                    disp loc aps d m filename fs
   = (Raise (KeyError "aperture_radii"), reached_the_gate, fs) /\
   reduce_frame_raw (complete_night n) (with_section_ds9 None (complete_inst i))
                    disp loc aps d m filename fs
   = (Raise (KeyError "ds9"), reached_the_gate, fs)).
Proof.
  intros Hc Hm. split; intros Hbig.
  - unfold reduce_frame_raw, reduce_frame, bind, emit, call, ret.
    cbn -[correct_data_osc measure_shift quarantine].
    change (correct_data_osc _) with (correct_data_osc ca). rewrite Hc, Hm, Hbig.
    reflexivity.
  - split;
      unfold reduce_frame_raw, frame_opening, bind, emit, call, ret;
      cbn -[correct_data_osc measure_shift quarantine];
      change (correct_data_osc _) with (correct_data_osc ca);
      rewrite Hc, Hm, Hbig; destruct (ds9 disp); reflexivity.
Qed.

End OneFrame.

Lemma bind_call_ext {A B} e (r : result A) (k k' : A -> Run B) fs :
  (forall a fs1, r = Ok a -> k a fs1 = k' a fs1) ->
  bind (call e r) k fs = bind (call e r) k' fs.
Proof.
  intros Hk. unfold bind, call. destruct r as [a | e']; [|reflexivity].
  rewrite (Hk a fs eq_refl). reflexivity.
Qed.

(** X17.  A night without science frames never reads the keys of the loop:
    with the display off and an empty selection, the script on mappings
    that lack [max_donuts_shift], [aperture_radii] and the [ds9] section
    runs exactly as on the complete ones. *)
Theorem loop_keys_are_not_read_without_frames (n : NightConfig) (i : InstConfig)
    images fs :
  night_ds9 n = false ->
  get_image_list = Ok images ->
  files_filtered images (inst_imager_image_keyword i) (night_filter n) = Ok [] ->
  main_raw (with_max_donuts_shift None (with_aperture_radii None (complete_night n)))
           (with_section_ds9 None (complete_inst i)) fs
  = main n i fs.
Proof.
  intros Hoff Himages Hfiles.
  unfold main_raw, main, set_up_ds9_raw, set_up_ds9.
  cbn [complete_night complete_inst with_max_donuts_shift with_aperture_radii
       with_section_ds9 raw_ds9 raw_section_observatory raw_olat raw_olon raw_elev
       raw_reference_image raw_section_imager raw_image_keyword raw_filter getitem].
  rewrite Hoff.
  apply bind_ext. intros disp fs0.
  apply bind_ext. intros aps fs1.
  apply bind_ext. intros d fs2.
  apply bind_call_ext. intros images' fs3 Himages'.
  assert (images' = images) as -> by congruence.
  apply bind_ext. intros [md de] fs4.
  apply bind_ext. intros mfl fs5.
  apply bind_call_ext. intros files fs6 Hfiles'.
  assert (files = []) as -> by congruence.
  reflexivity.
Qed.

End Mappings.

End Facts.

(** ** The gate, again *)

Lemma Qfloor_unique (q : Q) (z : Z) :
  inject_Z z <= q -> q < inject_Z z + 1 -> Qfloor q = z.
Proof.
  intros Hlo Hhi. apply Z.le_antisymm.
  - apply Z.lt_succ_r. rewrite Zlt_Qlt. unfold Z.succ.
    rewrite inject_Z_plus. change (inject_Z 1) with (1 # 1).
    pose proof (Qfloor_le q). lra.
  - rewrite <- (Qfloor_Z z). apply Qfloor_resp_le. exact Hlo.
Qed.

Lemma rint_comp (q q' : Q) : q == q' -> rint q = rint q'.
Proof.
  intros Heq. unfold rint. rewrite (Qfloor_comp _ _ Heq).
  rewrite (Qcompare_comp (q - inject_Z (Qfloor q')) (q' - inject_Z (Qfloor q'))
             ltac:(rewrite Heq; reflexivity) (1 # 2) (1 # 2) ltac:(reflexivity)).
  reflexivity.
Qed.

(** Rounding half to even is within a half of its argument. *)
Lemma rint_error (q : Q) :
  - (1 # 2) <= inject_Z (rint q) - q <= 1 # 2.
Proof.
  unfold rint.
  pose proof (Qfloor_le q) as Hfl. pose proof (Qlt_floor q) as Hfu.
  rewrite inject_Z_plus in Hfu. change (inject_Z 1) with (1 # 1) in Hfu.
  generalize dependent (Qfloor q). intros f Hfl Hfu.
  destruct (Qcompare_spec (q - inject_Z f) (1 # 2)) as [He | Hl | Hg].
  - destruct (Z.even f); [|rewrite inject_Z_plus; change (inject_Z 1) with (1 # 1)];
      split; lra.
  - split; lra.
  - rewrite inject_Z_plus. change (inject_Z 1) with (1 # 1). split; lra.
Qed.

(** Rounding half to even commutes with the change of sign. *)
Lemma rint_opp (q : Q) : rint (- q) = (- rint q)%Z.
Proof.
  pose proof (Qfloor_le q) as Hfl. pose proof (Qlt_floor q) as Hfu.
  rewrite inject_Z_plus in Hfu. change (inject_Z 1) with (1 # 1) in Hfu.
  destruct (Qeq_dec q (inject_Z (Qfloor q))) as [Hint | Hfrac].
  - (* an integer *)
    assert (Hf : Qfloor (- q) = (- Qfloor q)%Z).
    { apply Qfloor_unique; rewrite inject_Z_opp; lra. }
    unfold rint. rewrite Hf, inject_Z_opp.
    destruct (Qcompare_spec (- q - - inject_Z (Qfloor q)) (1 # 2)); try lra.
    destruct (Qcompare_spec (q - inject_Z (Qfloor q)) (1 # 2)); try lra.
    reflexivity.
  - assert (Hlt : inject_Z (Qfloor q) < q).
    { apply Qle_lteq in Hfl. destruct Hfl as [Hlt | Heq]; [exact Hlt|].
      exfalso. apply Hfrac. symmetry. exact Heq. }
    assert (Hf : Qfloor (- q) = (- (Qfloor q + 1))%Z).
    { apply Qfloor_unique; rewrite inject_Z_opp, inject_Z_plus;
        change (inject_Z 1) with (1 # 1); lra. }
    unfold rint. rewrite Hf.
    rewrite inject_Z_opp, inject_Z_plus. change (inject_Z 1) with (1 # 1).
    generalize dependent (Qfloor q). intros f Hfl Hfu Hfrac Hlt _.
    destruct (Qcompare_spec (q - inject_Z f) (1 # 2)) as [He | Hl | Hg];
      destruct (Qcompare_spec (- q - - (inject_Z f + (1 # 1))) (1 # 2))
        as [He' | Hl' | Hg']; try lra; try lia.
    rewrite Z.even_opp, Z.even_add. cbn.
    destruct (Z.even f); cbn; lia.
Qed.

Lemma Qabs_opp_eq (q : Q) : Qabs (- q) = Qabs q.
Proof. destruct q as [n d]. unfold Qabs, Qopp. cbn. rewrite Z.abs_opp. reflexivity. Qed.

Lemma py_round_opp (v : Q) (ndigits : nat) :
  py_round (- v) ndigits = - py_round v ndigits.
Proof.
  unfold py_round.
  rewrite (rint_comp (- v * inject_Z (10 ^ Z.of_nat ndigits))
                     (- (v * inject_Z (10 ^ Z.of_nat ndigits)))) by ring.
  rewrite rint_opp. reflexivity.
Qed.

Lemma hundredths (a : Z) : a # 100 == inject_Z a * (1 # 100).
Proof. unfold Qeq, inject_Z. cbn. lia. Qed.

(** [round(v, 2)] is within 0.005 of [v]. *)
Lemma py_round_2_error (v : Q) :
  - 0.005 <= py_round v 2 - v <= 0.005.
Proof.
  unfold py_round.
  change (Z.to_pos (10 ^ Z.of_nat 2)) with 100%positive.
  change (inject_Z (10 ^ Z.of_nat 2)) with (100 # 1).
  pose proof (rint_error (v * (100 # 1))) as [Hlo Hhi].
  rewrite hundredths. split; lra.
Qed.

Lemma Qabs_le_of_near (r v b : Q) :
  - 0.005 <= r - v <= 0.005 -> Qabs v <= b - 0.005 -> Qabs r <= b.
Proof.
  intros [Hlo Hhi] Hv. apply Qabs_Qle_condition in Hv. destruct Hv.
  apply Qabs_Qle_condition. split; lra.
Qed.

Lemma Qabs_gt_of_near (r v b : Q) :
  - 0.005 <= r - v <= 0.005 -> b + 0.005 < Qabs v -> b < Qabs r.
Proof.
  intros [Hlo Hhi] Hv.
  destruct (Qlt_le_dec v 0) as [Hneg | Hpos].
  - pose proof (Qabs_neg v ltac:(lra)) as Hv'.
    pose proof (Qle_Qabs (- r)) as Hr'. pose proof (Qabs_opp r) as Hopp. lra.
  - pose proof (Qabs_pos v Hpos) as Hv'.
    pose proof (Qle_Qabs r) as Hr'. lra.
Qed.

(** X18.  Rounding to two decimals can change the verdict only for a
    shift within one hundredth of the tolerance: a frame whose two measured
    components are at least 0.01 inside the tolerance is accepted, and a
    frame with a measured component more than 0.01 outside it is rejected.
    The exact rounding is never off by more than 0.005; the margin of a
    hundredth leaves the other half to the binary arithmetic of the
    script, which may take a tie the other way. *)
Theorem gate_agrees_with_raw_test_outside_band (shift : Shift) (max_donuts_shift : Q) :
  (Qabs (shift_x shift) <= max_donuts_shift - 0.01 ->
   Qabs (shift_y shift) <= max_donuts_shift - 0.01 ->
   shift_too_big shift max_donuts_shift = false) /\
  (max_donuts_shift + 0.01 < Qabs (shift_x shift) \/
   max_donuts_shift + 0.01 < Qabs (shift_y shift) ->
   shift_too_big shift max_donuts_shift = true).
Proof.
  split.
  - intros Hx Hy. apply shift_too_big_false. split.
    + apply (Qabs_le_of_near _ _ _ (py_round_2_error _)). lra.
    + apply (Qabs_le_of_near _ _ _ (py_round_2_error _)). lra.
  - intros [Hx | Hy]; apply shift_too_big_true; [left | right].
    + apply (Qabs_gt_of_near _ _ _ (py_round_2_error _)). lra.
    + apply (Qabs_gt_of_near _ _ _ (py_round_2_error _)). lra.
Qed.

(** X19.  The verdict depends on the size of the drift only: changing the
    sign of a component, or exchanging the two components, does not change
    it, ties of the rounding included. *)
Theorem gate_sees_magnitudes_only (x y max_donuts_shift : Q) :
  shift_too_big {| shift_x := - x; shift_y := y |} max_donuts_shift =
    shift_too_big {| shift_x := x; shift_y := y |} max_donuts_shift /\
  shift_too_big {| shift_x := x; shift_y := - y |} max_donuts_shift =
    shift_too_big {| shift_x := x; shift_y := y |} max_donuts_shift /\
  shift_too_big {| shift_x := y; shift_y := x |} max_donuts_shift =
    shift_too_big {| shift_x := x; shift_y := y |} max_donuts_shift.
Proof.
  unfold shift_too_big, np_greater. cbn [map shift_x shift_y].
  rewrite !np_sum_two, !py_round_opp, !Qabs_opp_eq.
  repeat split. apply orb_comm.
Qed.

(** X20.  The tolerance at its edges: a negative tolerance rejects every
    frame; a frame accepted at one tolerance is accepted at any wider one;
    at tolerance zero a frame is accepted exactly when both components
    round to zero. *)
Theorem gate_tolerance_edge_cases (shift : Shift) (max_donuts_shift : Q) :
  (max_donuts_shift < 0 -> shift_too_big shift max_donuts_shift = true) /\
  (forall wider, max_donuts_shift <= wider ->
     shift_too_big shift max_donuts_shift = false ->
     shift_too_big shift wider = false) /\
  (max_donuts_shift == 0 ->
     (shift_too_big shift max_donuts_shift = false <->
      py_round (shift_x shift) 2 == 0 /\ py_round (shift_y shift) 2 == 0)).
Proof.
  split; [|split].
  - intros Hneg. apply shift_too_big_true. left.
    pose proof (Qabs_nonneg (py_round (shift_x shift) 2)). lra.
  - intros wider Hle Hacc. apply shift_too_big_false in Hacc as [Hx Hy].
    apply shift_too_big_false. split; lra.
  - intros Hzero. rewrite shift_too_big_false, Hzero.
    pose proof (Qabs_nonneg (py_round (shift_x shift) 2)) as Hx.
    pose proof (Qabs_nonneg (py_round (shift_y shift) 2)) as Hy.
    split.
    + intros [Hx0 Hy0]. split.
      * apply Qabs_Qle_condition in Hx0. lra.
      * apply Qabs_Qle_condition in Hy0. lra.
    + intros [Hx0 Hy0]. rewrite Hx0, Hy0. split; discriminate.
Qed.

(** * The theorems on the night of [Demo], and the statements that fail *)

(** C1, as first stated (the test taken on the measured shift itself),
    fails: a measured shift of 1.004 in x with a tolerance of 1 is let
    through, although 1.004 is above 1. *)
Lemma gate_is_not_on_the_measured_shift :
  ~ (forall (shift : Shift) (max_donuts_shift : Q),
       shift_too_big shift max_donuts_shift = false <->
       Qabs (shift_x shift) <= max_donuts_shift /\
       Qabs (shift_y shift) <= max_donuts_shift).
Proof.
  intros Hall.
  destruct (Hall {| shift_x := 1.004; shift_y := 0 |} 1) as [Hraw _].
  destruct (Hraw eq_refl) as [Hx _]. apply Hx. reflexivity.
Qed.

Lemma photometry_exactly_on_accepted_frames_witness :
  phot_calls (events (reduce_frame (H := Demo.jastro) Demo.night Demo.inst
                        Demo.display_on (location Demo.inst) Demo.region
                        "ref.fits" Demo.no_masters "b.fits") ∅) = [] /\
  outcome (reduce_frame (H := Demo.jastro) Demo.night Demo.inst
             Demo.display_on (location Demo.inst) Demo.region
             "ref.fits" Demo.no_masters "b.fits") ∅ = Ok tt.
Proof.
  refine (proj1 (proj2 (photometry_exactly_on_accepted_frames
            (jastro := Demo.jastro) Demo.night Demo.inst Demo.display_on
            (location Demo.inst) Demo.region "ref.fits" Demo.no_masters)
          "b.fits" ∅ "b.fits" 2460000 2460000.002 2460000.001
          (Demo.shifts "b.fits") _ _) _); reflexivity.
Defined.

(** C10, as first stated, fails when the tolerance is not a whole number of
    hundredths: with a tolerance of 1.004, a shift of 1.006 in x is above it
    by 0.002 only, yet it rounds to 1.01 and the frame is rejected. *)
Lemma small_excess_can_be_rejected :
  ~ (forall (shift : Shift) (max_donuts_shift : Q),
       max_donuts_shift < Qabs (shift_x shift) ->
       Qabs (shift_x shift) < max_donuts_shift + 0.0025 ->
       Qabs (shift_y shift) <= max_donuts_shift ->
       shift_too_big shift max_donuts_shift = false).
Proof.
  intros Hall.
  assert (Hacc : shift_too_big {| shift_x := 1.006; shift_y := 0 |} 1.004 = false).
  { apply Hall; [reflexivity | reflexivity | discriminate]. }
  discriminate Hacc.
Qed.

Lemma gate_rounds_but_phot_gets_measured_shift_witness :
  shift_too_big (Calibrated.shifts "a.fits") 1 = false /\
  exists a,
    phot_calls (events (reduce_frame (H := Calibrated.jastro) Demo.night Demo.inst
                          Demo.display_on (location Demo.inst) Demo.region
                          "ref.fits" Demo.no_masters "a.fits") ∅) = [a] /\
    ph_shift a = {| shift_x := 1.002; shift_y := -0.3 |}.
Proof.
  destruct (gate_rounds_but_phot_gets_measured_shift
              (jastro := Calibrated.jastro) Demo.night Demo.inst Demo.display_on
              (location Demo.inst) Demo.region "ref.fits" Demo.no_masters
              "a.fits" ∅ "a.fits" 2460000 2460000.002 2460000.001
              (Calibrated.shifts "a.fits") eq_refl eq_refl) as (_ & Hphot & Hgrid).
  assert (Hacc : shift_too_big (Calibrated.shifts "a.fits") 1 = false).
  { apply (Hgrid 100%Z); reflexivity. }
  split; [exact Hacc | exact (Hphot Hacc)].
Defined.

Lemma recentering_unless_defocused_witness :
  (events (set_up_apertures (H := Demo.jastro) Demo.night Demo.inst) ∅ =
     [E_read_region_file "leowasp.reg"] /\
   outcome (set_up_apertures (H := Demo.jastro) Demo.night Demo.inst) ∅ =
     Ok Demo.region) /\
  outcome (set_up_apertures (H := Demo.jastro) Demo.focused_night Demo.inst) ∅ =
    Ok {| ap_x := [101; 199.5]; ap_y := [99.5; 200];
          ap_rsi := [5; 5]; ap_rso := [10; 10] |}.
Proof.
  split.
  - exact (proj1 (recentering_unless_defocused (jastro := Demo.jastro)
                    Demo.night Demo.inst ∅) eq_refl).
  - exact (proj1 (proj2 (proj2 (proj2 (recentering_unless_defocused
                    (jastro := Demo.jastro) Demo.focused_night Demo.inst ∅)
                  eq_refl Demo.region eq_refl)
                  [101; 199.5] [99.5; 200] eq_refl)
                  [101; 199.5] [99.5; 200] eq_refl)).
Defined.

Lemma shift_is_measured_on_the_selected_file_witness :
  exists rest,
    events (reduce_frame (H := Demo.jastro) Demo.night Demo.inst
              Demo.display_on (location Demo.inst) Demo.region
              "ref.fits" Demo.no_masters "a.fits") ∅ =
      frame_opening Demo.display_on "a.fits" ++
      E_correct_data_osc (correct_args Demo.night Demo.inst (location Demo.inst)
                                       Demo.no_masters "a.fits") ::
      E_measure_shift "ref.fits" "a.fits" :: rest /\
    Forall (fun e => forall d' f, e <> E_measure_shift d' f) rest /\
    (forall a, In (E_phot a) rest ->
       ph_data a = "a.fits" /\ ph_filename a = "a.fits" /\
       Ok (Demo.shifts "a.fits") = Ok (ph_shift a)).
Proof.
  exact (proj1 (shift_is_measured_on_the_selected_file (jastro := Demo.jastro)
                  Demo.night Demo.inst)
           Demo.display_on (location Demo.inst) Demo.region "ref.fits"
           Demo.no_masters "a.fits" ∅ "a.fits" 2460000 2460000.002 2460000.001
           eq_refl).
Defined.

Lemma apertures_fixed_before_the_loop_witness :
  exists before_loop in_loop,
    events (main (H := Demo.jastro) Demo.night Demo.inst) ∅ = before_loop ++ in_loop /\
    Forall (fun e => per_frame_call e = false) before_loop /\
    Forall (fun e => aperture_call e = false) in_loop /\
    (length (List.filter is_read_region_file before_loop) <= 1)%nat /\
    (length (List.filter is_recenter_stars before_loop) <= 1)%nat /\
    Forall (fun e => forall a, e = E_phot a ->
              Ok Demo.region = Ok (apertures_of a) /\
              exists d,
                Ok "ref.fits" = Ok d /\
                Ok (Demo.shifts (ph_filename a)) = Ok (ph_shift a))
           in_loop.
Proof.
  exact (apertures_fixed_before_the_loop (jastro := Demo.jastro)
           Demo.night Demo.inst ∅).
Defined.

Lemma demo_collaborators_return : collaborators_return (H := Demo.jastro).
Proof.
  unfold collaborators_return.
  repeat split; intros; try (eexists; reflexivity).
Defined.

Lemma absent_masters_pass_through_witness :
  (forall ca,
     In (E_correct_data_osc ca)
        (events (main (H := Demo.jastro) Demo.night Demo.inst) ∅) ->
     cd_master_dark ca = None /\ cd_dark_exp ca = 30) /\
  outcome (main (H := Demo.jastro) Demo.night Demo.inst) ∅ = Ok tt.
Proof.
  pose proof (absent_masters_pass_through (jastro := Demo.jastro)
                Demo.night Demo.inst ∅) as (Hdark & _ & Hreturns).
  split.
  - apply (Hdark (master_dark_args Demo.night Demo.inst
                    ["a.fits"; "b.fits"; "c.fits"; "d.fits"]) 30).
    + vm_compute. tauto.
    + reflexivity.
  - exact (Hreturns demo_collaborators_return).
Defined.

Lemma gain_is_the_literal_witness :
  (exists a,
     phot_calls (events (reduce_frame (H := Demo.jastro) Demo.night Demo.inst
                           Demo.display_on (location Demo.inst) Demo.region
                           "ref.fits" Demo.no_masters "a.fits") ∅) = [a] /\
     ph_filename a = "a.fits" /\ ph_gain a = 0.4) /\
  map (fun a => (ph_filename a, ph_gain a))
      (phot_calls (events (reduce_all (H := Demo.jastro) Demo.night Demo.inst
                             Demo.display_on (location Demo.inst) Demo.region
                             "ref.fits" Demo.no_masters
                             ["a.fits"; "b.fits"; "c.fits"; "d.fits"]) ∅)) =
  [("a.fits", 0.4); ("c.fits", 0.4); ("d.fits", 0.4)].
Proof.
  destruct (gain_is_the_literal (jastro := Demo.jastro) Demo.night Demo.inst)
    as (Hframe & Hloop & _).
  split.
  - exact (Hframe Demo.display_on (location Demo.inst) Demo.region "ref.fits"
             Demo.no_masters "a.fits" ∅ "a.fits" 2460000 2460000.002 2460000.001
             (Demo.shifts "a.fits") eq_refl eq_refl eq_refl).
  - exact (Hloop Demo.display_on (location Demo.inst) Demo.region "ref.fits"
             Demo.no_masters ["a.fits"; "b.fits"; "c.fits"; "d.fits"] ∅ eq_refl).
Defined.

Lemma quarantine_directory_created_once_witness :
  List.filter is_mkdir
    (events (main (H := Demo.jastro) Demo.night Demo.inst) {["failed_donuts"]}) = [].
Proof.
  apply (proj2 (proj2 (quarantine_directory_created_once (jastro := Demo.jastro)
                         Demo.night Demo.inst))).
  apply elem_of_singleton. reflexivity.
Defined.

Lemma demo_phot_ignores_display : phot_ignores_display (H := Demo.jastro).
Proof. intros a. reflexivity. Defined.

Lemma display_does_not_alter_the_run_witness :
  hide_display (events (main (H := Demo.jastro) (with_ds9 true Demo.night) Demo.inst) ∅) =
  hide_display (events (main (H := Demo.jastro) (with_ds9 false Demo.night) Demo.inst) ∅).
Proof.
  exact (proj1 (proj2 (proj2 (proj2
           (display_does_not_alter_the_run (jastro := Demo.jastro)
              Demo.night Demo.inst ∅ demo_phot_ignores_display))))).
Defined.

(** ** The night of [Demo], run *)

Example demo_run_ends_normally :
  outcome (main (H := Demo.jastro) Demo.night Demo.inst) ∅ = Ok tt.
Proof. reflexivity. Qed.

Example demo_photometered_files :
  map ph_filename
      (phot_calls (events (main (H := Demo.jastro) Demo.night Demo.inst) ∅)) =
  ["a.fits"; "c.fits"; "d.fits"].
Proof. reflexivity. Qed.

Example demo_working_directory_calls :
  List.filter touches_paths
    (events (main (H := Demo.jastro) Demo.night Demo.inst) ∅) =
  [E_mkdir "failed_donuts"; E_system "mv b.fits failed_donuts/"].
Proof. reflexivity. Qed.

Example demo_boundary_frame_is_accepted :
  shift_too_big (Demo.shifts "d.fits") 1 = false.
Proof. reflexivity. Qed.

(** * The further properties on the nights of [Demo] and [Mishaps] *)

Example stages_of_two_nights :
  stages (events (prepare (H := Demo.jastro) Demo.night Demo.inst) ∅) =
    [0; 1; 4; 5; 6; 7; 8]%nat /\
  stages (events (prepare (H := Demo.jastro) Demo.focused_night Demo.inst) ∅) =
    [1; 2; 3; 4; 5; 6; 7; 8]%nat.
Proof. split; reflexivity. Qed.

Example calibrated_night_waits_twice :
  List.filter is_display_call
    (events (prepare (H := Calibrated.jastro) Demo.night Demo.inst) ∅) =
  [E_ds9_setup "leowasp";
   E_ds9_display (Some "leowasp") "master_dark.fits"; E_sleep 5;
   E_ds9_display (Some "leowasp") "master_flat.fits"; E_sleep 5].
Proof. reflexivity. Qed.


Lemma frames_are_corrected_only_after_the_preparation_witness :
  exists aps d images m files,
    outcome (set_up_apertures (H := Demo.jastro) Demo.night Demo.inst) ∅ = Ok aps /\
    Donuts (Collaborators := Demo.jastro) "ref.fits" = Ok d /\
    masters_built (H := Demo.jastro) Demo.night Demo.inst images m /\
    frames_selected (H := Demo.jastro) Demo.night Demo.inst images files /\
    In "d.fits" files /\
    correct_args Demo.night Demo.inst (location Demo.inst) Demo.no_masters "d.fits"
    = correct_args Demo.night Demo.inst (location Demo.inst) m "d.fits".
Proof.
  apply (frames_are_corrected_only_after_the_preparation (jastro := Demo.jastro)
           Demo.night Demo.inst ∅
           (correct_args Demo.night Demo.inst (location Demo.inst)
                         Demo.no_masters "d.fits")).
  vm_compute. tauto.
Defined.

Lemma loop_stops_at_the_first_exception_witness :
  outcome (reduce_all (H := Mishaps.bad_header) Demo.night Demo.inst
             Demo.display_on (location Demo.inst) Demo.region "ref.fits"
             Demo.no_masters ["a.fits"; "b.fits"; "c.fits"; "d.fits"]) ∅
  = Raise (CollaboratorError "bad header").
Proof.
  exact (proj1 (loop_stops_at_the_first_exception (jastro := Mishaps.bad_header)
                  Demo.night Demo.inst Demo.display_on (location Demo.inst)
                  Demo.region "ref.fits" Demo.no_masters
                  ["a.fits"; "b.fits"] "c.fits" ["d.fits"] ∅
                  (CollaboratorError "bad header") eq_refl eq_refl)).
Defined.

Lemma complete_loop_accounting_witness :
  corrected_files
    (events (reduce_all (H := Demo.jastro) Demo.night Demo.inst Demo.display_on
               (location Demo.inst) Demo.region "ref.fits" Demo.no_masters
               ["a.fits"; "b.fits"; "c.fits"; "d.fits"]) ∅)
  = ["a.fits"; "b.fits"; "c.fits"; "d.fits"].
Proof.
  exact (proj1 (complete_loop_accounting (jastro := Demo.jastro)
                  Demo.night Demo.inst Demo.display_on (location Demo.inst)
                  Demo.region "ref.fits" Demo.no_masters
                  ["a.fits"; "b.fits"; "c.fits"; "d.fits"] ∅ eq_refl)).
Defined.

Lemma headless_run_never_touches_the_display_witness :
  Forall (fun e => is_display_call e = false /\
                   forall a, e = E_phot a ->
                     ph_ds9_name a = None /\ ph_draw_regions a = false)
         (events (main (H := Demo.jastro) Demo.focused_night Demo.inst) ∅).
Proof.
  exact (headless_run_never_touches_the_display (jastro := Demo.jastro)
           Demo.focused_night Demo.inst ∅ eq_refl).
Defined.

Lemma photometry_uses_the_radii_of_the_region_file_witness :
  Forall (fun e => forall a, e = E_phot a ->
            ph_rsi a = [5; 5] /\ ph_rso a = [10; 10] /\
            (recenter_keeps_length (H := Demo.jastro) ->
               length (ph_x a) = 2%nat /\ length (ph_y a) = 2%nat))
         (events (main (H := Demo.jastro) Demo.focused_night Demo.inst) ∅).
Proof.
  exact (photometry_uses_the_radii_of_the_region_file (jastro := Demo.jastro)
           Demo.focused_night Demo.inst ∅ Demo.region eq_refl).
Defined.

Lemma gate_agrees_with_raw_test_outside_band_witness :
  shift_too_big {| shift_x := 0.5; shift_y := 0.9 |} 1 = false /\
  shift_too_big {| shift_x := 0.03; shift_y := 1.2 |} 1 = true.
Proof.
  split.
  - apply (proj1 (gate_agrees_with_raw_test_outside_band
                    {| shift_x := 0.5; shift_y := 0.9 |} 1)); discriminate.
  - apply (proj2 (gate_agrees_with_raw_test_outside_band
                    {| shift_x := 0.03; shift_y := 1.2 |} 1)).
    right. reflexivity.
Defined.

Lemma gate_tolerance_edge_cases_witness :
  shift_too_big {| shift_x := 0; shift_y := 0 |} (-1 # 100) = true /\
  shift_too_big {| shift_x := 0.5; shift_y := 0.9 |} 2 = false.
Proof.
  split.
  - apply (proj1 (gate_tolerance_edge_cases {| shift_x := 0; shift_y := 0 |}
                                            (-1 # 100))). reflexivity.
  - apply (proj1 (proj2 (gate_tolerance_edge_cases
                           {| shift_x := 0.5; shift_y := 0.9 |} 1)) 2);
      [discriminate | reflexivity].
Defined.

Lemma keys_of_the_branch_not_taken_witness :
  main_raw (H := Demo.jastro) (complete_night Demo.focused_night)
           (with_window_id None (complete_inst Demo.inst))
  = main_raw (H := Demo.jastro) (complete_night Demo.focused_night)
             (complete_inst Demo.inst) /\
  main_raw (H := Demo.jastro) (with_max_sep_shift None (complete_night Demo.night))
           (with_section_sky None (complete_inst Demo.inst))
  = main_raw (H := Demo.jastro) (complete_night Demo.night) (complete_inst Demo.inst).
Proof.
  split.
  - exact (proj1 (keys_of_the_branch_not_taken (jastro := Demo.jastro)
                    (complete_night Demo.focused_night) (complete_inst Demo.inst))
                 eq_refl None).
  - exact (proj2 (keys_of_the_branch_not_taken (jastro := Demo.jastro)
                    (complete_night Demo.night) (complete_inst Demo.inst))
                 eq_refl None None).
Defined.

Lemma normal_end_has_read_the_preparation_keys_witness :
  outcome (main_raw (H := Demo.jastro) (complete_night Demo.night)
                    (complete_inst Demo.inst)) ∅ = Ok tt /\
  is_Some (raw_region_file (complete_night Demo.night)) /\
  is_Some (raw_section_imager (complete_inst Demo.inst)).
Proof.
  assert (Hend : outcome (main_raw (H := Demo.jastro) (complete_night Demo.night)
                                   (complete_inst Demo.inst)) ∅ = Ok tt)
    by (vm_compute; reflexivity).
  split; [exact Hend|].
  pose proof (normal_end_has_read_the_preparation_keys
                (jastro := Demo.jastro) (complete_night Demo.night)
                (complete_inst Demo.inst) ∅ Hend)
    as [(_ & Hregion & _) [_ (imager & Himager & _)]].
  split; [exact Hregion | rewrite Himager; eexists; reflexivity].
Defined.

Lemma missing_tolerance_is_noticed_after_the_measurement_witness :
  outcome (reduce_frame_raw (H := Demo.jastro)
             (with_max_donuts_shift None (complete_night Demo.night))
             (complete_inst Demo.inst) Demo.display_on (location Demo.inst)
             Demo.region "ref.fits" Demo.no_masters "a.fits") ∅
  = Raise (KeyError "max_donuts_shift").
Proof.
  unfold outcome.
  rewrite (missing_tolerance_is_noticed_after_the_measurement
             (jastro := Demo.jastro) Demo.night Demo.inst Demo.display_on
             (location Demo.inst) Demo.region "ref.fits" Demo.no_masters "a.fits"
             ∅ "a.fits" 2460000 2460000.002 2460000.001 (Demo.shifts "a.fits")
             eq_refl eq_refl).
  reflexivity.
Defined.

Lemma photometry_keys_are_read_for_accepted_frames_only_witness :
  reduce_frame_raw (H := Demo.jastro)
    (with_aperture_radii None (complete_night Demo.night))
    (with_section_ds9 None (complete_inst Demo.inst))
    Demo.display_on (location Demo.inst) Demo.region "ref.fits"
    Demo.no_masters "b.fits" ∅
  = reduce_frame (H := Demo.jastro) Demo.night Demo.inst Demo.display_on
                 (location Demo.inst) Demo.region "ref.fits" Demo.no_masters
                 "b.fits" ∅.
Proof.
  exact (proj1 (photometry_keys_are_read_for_accepted_frames_only
                  (jastro := Demo.jastro) Demo.night Demo.inst Demo.display_on
                  (location Demo.inst) Demo.region "ref.fits" Demo.no_masters
                  "b.fits" ∅ "b.fits" 2460000 2460000.002 2460000.001
                  (Demo.shifts "b.fits") eq_refl eq_refl) eq_refl).
Defined.

Lemma loop_keys_are_not_read_without_frames_witness :
  main_raw (H := Mishaps.no_science)
    (with_max_donuts_shift None
       (with_aperture_radii None (complete_night Demo.focused_night)))
    (with_section_ds9 None (complete_inst Demo.inst)) ∅
  = main (H := Mishaps.no_science) Demo.focused_night Demo.inst ∅.
Proof.
  exact (loop_keys_are_not_read_without_frames (jastro := Mishaps.no_science)
           Demo.focused_night Demo.inst ["dark1.fits"; "flat1.fits"] ∅
           eq_refl eq_refl eq_refl).
Defined.
